(** * ethercalc-client: the HTTP client of the Ethercalc spreadsheet service

    A shallow embedding of the two implementations the repository carries:
    [index.js], written with promise chains ([Chained] below), and the
    async/await rewrite ([Async] below).  Every public method builds one
    request, hands it to the shared axios instance and shapes the outcome.

    JavaScript values are dynamically typed, so the methods take and return
    [value]s; what a call does to its caller is an [outcome]; the requests
    handed to the transport are collected in a log. *)

From Stdlib Require Import String Ascii ZArith List Bool Lia DecimalString.
Import ListNotations.
Local Open Scope string_scope.
Local Open Scope Z_scope.
Set Warnings "-register-all".

(** ** JavaScript values

    Primitives, arrays, plain objects with their own properties in insertion
    order, [Error] instances (the values of [name] and [message], and the
    further own properties), and host objects: objects with behaviour of
    their own, such as a String object, an instance of a class or a
    function, known by an identifier.  A number stands for an integer. *)

Inductive value : Type :=
| VUndefined
| VNull
| VBool (b : bool)
| VNum (n : Z)
| VStr (s : string)
| VArr (items : list value)
| VObj (fields : list (string * value))
| VErr (name message : string) (fields : list (string * value))
| VHost (id : nat).

(** What evaluating an expression does: it yields something or it throws. *)
Inductive result (A : Type) : Type :=
| Ok (a : A)
| Throw (e : value).
Arguments Ok {A} a.
Arguments Throw {A} e.

(** The engine the program runs in: what each host object does when a
    property of it is read, when a method of it is called without arguments,
    when it is called as a function on a receiver, and when it is converted
    to a string; and how an integer beyond the safe range prints (as the
    double nearest to it does, in exponent form from 1e21 on). *)
Class Engine : Type := {
  object_get : nat -> string -> value;
  object_call : nat -> string -> result value;
  is_callable : nat -> bool;
  function_call : nat -> value -> result value;
  object_ToString : nat -> result string;
  large_number_text : Z -> string
}.

Definition TypeError (message : string) : value := VErr "TypeError" message [].

(** [new Error(message)] *)
Definition new_Error (message : string) : value := VErr "Error" message [].

(** ToBoolean, the test behind [if (x)] and [x || y]. *)
Definition truthy (v : value) : bool :=
  match v with
  | VUndefined | VNull => false
  | VBool b => b
  | VNum n => negb (n =? 0)
  | VStr s => negb (String.eqb s EmptyString)
  | VArr _ | VObj _ | VErr _ _ _ | VHost _ => true
  end.

(** [a || b] *)
Definition or_else (a b : value) : value := if truthy a then a else b.

Fixpoint lookup (k : string) (fields : list (string * value)) : option value :=
  match fields with
  | [] => None
  | (k', v) :: rest => if String.eqb k k' then Some v else lookup k rest
  end.

(** Property read [v.k].  Reading a property of [undefined] or [null]
    throws; a missing property reads as [undefined]; a host object answers
    for itself.  The program reads only [response], [status], [statusText]
    and [data], which no primitive and no array carries. *)
Definition prop `{Engine} (v : value) (k : string) : result value :=
  match v with
  | VUndefined => Throw (TypeError ("Cannot read properties of undefined (reading '" ++ k ++ "')"))
  | VNull => Throw (TypeError ("Cannot read properties of null (reading '" ++ k ++ "')"))
  | VObj fields =>
      Ok (match lookup k fields with Some x => x | None => VUndefined end)
  | VErr name message fields =>
      Ok (if String.eqb k "message" then VStr message
          else if String.eqb k "name" then VStr name
          else match lookup k fields with Some x => x | None => VUndefined end)
  | VHost id => Ok (object_get id k)
  | VBool _ | VNum _ | VStr _ | VArr _ => Ok VUndefined
  end.

Definition decimal (n : Z) : string := NilZero.string_of_int (Z.to_int n).

(** Number to string: the decimal digits of a safe integer; beyond the safe
    range the engine prints the double nearest to the integer. *)
Definition number_text `{Engine} (n : Z) : string :=
  if Z.abs n <=? 9007199254740991 then decimal n else large_number_text n.

Definition cannot_convert : value := TypeError "Cannot convert object to primitive value".

(** The string for a primitive; an object is not a primitive. *)
Definition primitive_text `{Engine} (v : value) : option string :=
  match v with
  | VUndefined => Some "undefined"
  | VNull => Some "null"
  | VBool true => Some "true"
  | VBool false => Some "false"
  | VNum n => Some (number_text n)
  | VStr s => Some s
  | VArr _ | VObj _ | VErr _ _ _ | VHost _ => None
  end.

(** What a member of an object gives when it is tried as a conversion
    method on [this]: nothing when it is not a function, else what the call
    returns or throws. *)
Definition try_method `{Engine} (member : option value) (this : value)
    : option (result value) :=
  match member with
  | Some (VHost f) => if is_callable f then Some (function_call f this) else None
  | _ => None
  end.

(** The second step of the conversion of an object, [valueOf]: an own
    function is called and has to give a primitive; the inherited one gives
    the object back, which is none. *)
Definition by_valueOf `{Engine} (this : value) (fields : list (string * value))
    : result string :=
  match try_method (lookup "valueOf" fields) this with
  | Some (Throw e) => Throw e
  | Some (Ok r) =>
      match primitive_text r with
      | Some s => Ok s
      | None => Throw cannot_convert
      end
  | None => Throw cannot_convert
  end.

(** Conversion of an object with own properties [fields] to a string: its
    own [toString] when that is a function (falling back on [valueOf] when
    the call gives an object), [valueOf] when the own [toString] is no
    function, and the inherited [toString], which gives [inherited], when
    there is no own one. *)
Definition object_text `{Engine} (this : value) (fields : list (string * value))
    (inherited : string) : result string :=
  match lookup "toString" fields with
  | None => Ok inherited
  | Some member =>
      match try_method (Some member) this with
      | Some (Throw e) => Throw e
      | Some (Ok r) =>
          match primitive_text r with
          | Some s => Ok s
          | None => by_valueOf this fields
          end
      | None => by_valueOf this fields
      end
  end.

(** [Error.prototype.toString] *)
Definition error_text (name message : string) : string :=
  if String.eqb name EmptyString then message
  else if String.eqb message EmptyString then name
  else name ++ ": " ++ message.

(** ToString, as applied to the holes of a template literal.  Array
    elements [undefined] and [null] print as nothing. *)
Fixpoint ToString `{Engine} (v : value) : result string :=
  match v with
  | VUndefined => Ok "undefined"
  | VNull => Ok "null"
  | VBool true => Ok "true"
  | VBool false => Ok "false"
  | VNum n => Ok (number_text n)
  | VStr s => Ok s
  | VArr items =>
      (fix join (l : list value) : result string :=
         match l with
         | [] => Ok EmptyString
         | x :: rest =>
             let piece :=
               match x with
               | VUndefined | VNull => Ok EmptyString
               | _ => ToString x
               end in
             match piece with
             | Throw e => Throw e
             | Ok s =>
                 match rest with
                 | [] => Ok s
                 | _ :: _ =>
                     match join rest with
                     | Throw e => Throw e
                     | Ok t => Ok (s ++ "," ++ t)
                     end
                 end
             end
         end) items
  | VObj fields => object_text v fields "[object Object]"
  | VErr name message fields => object_text v fields (error_text name message)
  | VHost id => object_ToString id
  end.

Definition lower_ascii (c : ascii) : ascii :=
  let n := nat_of_ascii c in
  if (Nat.leb 65 n && Nat.leb n 90)%bool then ascii_of_nat (n + 32) else c.

Fixpoint lowercase (s : string) : string :=
  match s with
  | EmptyString => EmptyString
  | String c rest => String (lower_ascii c) (lowercase rest)
  end.

Definition not_a_function : value := TypeError "type.toLowerCase is not a function".

(** The method call [v.toLowerCase()].  A string has the method; on
    [undefined] and [null] the property read throws; a host object answers
    for itself; an object with an own member of that name has it called when
    it is a function; anything else has no such function.  Strings are byte
    strings and the case mapping is the ASCII one; the letters of the export
    types are ASCII. *)
Definition toLowerCase `{Engine} (v : value) : result value :=
  match v with
  | VStr s => Ok (VStr (lowercase s))
  | VUndefined | VNull =>
      match prop v "toLowerCase" with
      | Throw e => Throw e
      | Ok _ => Throw not_a_function
      end
  | VHost id => object_call id "toLowerCase"
  | VObj fields | VErr _ _ fields =>
      match try_method (lookup "toLowerCase" fields) v with
      | Some r => r
      | None => Throw not_a_function
      end
  | VBool _ | VNum _ | VArr _ => Throw not_a_function
  end.

(** [a === b] against a string literal. *)
Definition strict_eq_str (v : value) (lit : string) : bool :=
  match v with
  | VStr s => String.eqb s lit
  | _ => false
  end.

(** ** Requests and the axios instance *)

Inductive Method : Type := GET | POST | PUT | DELETE.

(** What [fs.createReadStream(path)] hands back: a stream over that file. *)
Inductive ReadStream : Type := file_stream (path : value).

(** A request body: none, a string (here always a form encoding), the bytes
    of a [Buffer], or a file stream. *)
Inductive payload : Type :=
| NoData
| Text (s : string)
| Bytes (b : list Byte.byte)
| Stream (s : ReadStream).

(** The per-request configuration object: [{headers: {...}}], [{timeout: n}]. *)
Record Config : Type := {
  headers : list (string * string);
  timeout : option Z
}.

Definition no_config : Config := {| headers := []; timeout := None |}.

Record Request : Type := {
  method : Method;
  url : string;
  data : payload;
  config : Config
}.

(** [axios.create({baseURL, timeout})] *)
Record AxiosInstance : Type := {
  baseURL : string;
  default_timeout : value
}.

(** The object a constructor call builds: [this.instance]. *)
Record Client : Type := { instance : AxiosInstance }.

(** Modelled from the spec: the HTTP exchange behind the transport, which is
    not part of the repository.  Either the server answers with a status, a
    reason phrase and a decoded body, or no response is received (connection
    refused, DNS failure, timeout) and the transport has an error code and a
    message. *)
Inductive exchange : Type :=
| Answered (status : Z) (statusText : string) (body : value)
| Unanswered (code message : string).

(** The collaborators outside the repository: the engine, the form encoder
    [qs], Node's [Buffer.from] and [fs.createReadStream], and what the
    network does with a request. *)
Class Platform : Type := {
  engine :: Engine;
  qs_stringify : value -> string;
  Buffer_from : value -> result (list Byte.byte);
  fs_createReadStream : value -> result ReadStream;
  network : AxiosInstance -> Request -> exchange
}.

(** A promise is described by how it settles: fulfilled with a value or
    rejected with a reason. *)
Definition Promise : Type := result value.

Definition is_2xx (status : Z) : bool := (200 <=? status) && (status <? 300).

Definition response_object (status : Z) (statusText : string) (body : value) : value :=
  VObj [("data", body); ("status", VNum status); ("statusText", VStr statusText)].

Definition http_error (status : Z) (statusText : string) (body : value) : value :=
  VErr "Error" ("Request failed with status code " ++ decimal status)
       [("response", response_object status statusText body)].

Definition transport_failure (code message : string) : value :=
  VErr "Error" message [("code", VStr code)].

(** Modelled from the spec: how the transport settles a request.  A 2xx
    answer fulfils the promise with the response object; any other answer
    rejects it with an error that carries the response; no answer rejects it
    with the transport failure, which carries no response. *)
Definition settle (x : exchange) : Promise :=
  match x with
  | Answered status statusText body =>
      if is_2xx status then Ok (response_object status statusText body)
      else Throw (http_error status statusText body)
  | Unanswered code message => Throw (transport_failure code message)
  end.

(** Modelled from the spec: the instance timeout applies to every request
    unless the call overrides it. *)
Definition effective_timeout (inst : AxiosInstance) (req : Request) : value :=
  match timeout (config req) with
  | Some t => VNum t
  | None => default_timeout inst
  end.

(** ** Effects: the log of requests handed to the transport

    A computation reads and extends the log and either yields or throws; a
    request that was sent stays in the log when something throws later. *)

Definition Eff (A : Type) : Type := list Request -> result A * list Request.

Definition ret {A} (a : A) : Eff A := fun log => (Ok a, log).

Definition bind {A B} (c : Eff A) (k : A -> Eff B) : Eff B :=
  fun log =>
    match c log with
    | (Ok a, log') => k a log'
    | (Throw e, log') => (Throw e, log')
    end.

Definition eval {A} (r : result A) : Eff A := fun log => (r, log).

(** [try { body } catch (error) { handler }] *)
Definition try_catch {A} (body : Eff A) (handler : value -> Eff A) : Eff A :=
  fun log =>
    match body log with
    | (Ok a, log') => (Ok a, log')
    | (Throw e, log') => handler e log'
    end.

Declare Scope eff_scope.
Delimit Scope eff_scope with eff.
Notation "x <- c ;; k" := (bind c (fun x => k))
  (at level 61, c at next level, right associativity) : eff_scope.
Notation "'try' b 'catch' h" := (try_catch b h)
  (at level 62, b at level 61, h at level 61) : eff_scope.

(** [instance.request(config)]: the request goes out, the promise it returns
    settles according to the exchange. *)
Definition axios_request `{Platform} (inst : AxiosInstance) (req : Request) : Eff Promise :=
  fun log => (Ok (settle (network inst req)), (log ++ [req])%list).

Definition axios_get `{Platform} (inst : AxiosInstance) (url : string) : Eff Promise :=
  axios_request inst {| method := GET; url := url; data := NoData; config := no_config |}.

Definition axios_delete `{Platform} (inst : AxiosInstance) (url : string) : Eff Promise :=
  axios_request inst {| method := DELETE; url := url; data := NoData; config := no_config |}.

Definition axios_post `{Platform} (inst : AxiosInstance) (url : string)
    (body : payload) (conf : Config) : Eff Promise :=
  axios_request inst {| method := POST; url := url; data := body; config := conf |}.

Definition axios_put `{Platform} (inst : AxiosInstance) (url : string)
    (body : payload) (conf : Config) : Eff Promise :=
  axios_request inst {| method := PUT; url := url; data := body; config := conf |}.

(** [await p] yields the fulfilment value or throws the rejection reason. *)
Definition await (p : Eff Promise) : Eff value :=
  fun log =>
    match p log with
    | (Ok settled, log') => (settled, log')
    | (Throw e, log') => (Throw e, log')
    end.

(** [p.then(f)] and [p.catch(g)]: a handler that throws rejects the new promise. *)
Definition then_ (p : Promise) (f : value -> result value) : Promise :=
  match p with
  | Ok v => f v
  | Throw e => Throw e
  end.

Definition catch_ (p : Promise) (g : value -> result value) : Promise :=
  match p with
  | Ok v => Ok v
  | Throw e => g e
  end.

(** What a call does to its caller: it returns a plain value, throws, or
    returns a promise that is fulfilled or rejected. *)
Inductive outcome : Type :=
| Returns (v : value)
| Throws (e : value)
| Resolves (v : value)
| Rejects (e : value).

(** What the body of an ordinary function returns. *)
Inductive returned : Type :=
| Plain (v : value)
| Promised (p : Promise).

(** A finished call: its outcome and the requests it handed to the transport. *)
Definition Call : Type := outcome * list Request.

Definition result_of (c : Call) : outcome := fst c.
Definition requests (c : Call) : list Request := snd c.

(** An [async function]: the caller always gets a promise. *)
Definition async (body : Eff value) : Call :=
  match body [] with
  | (Ok v, log) => (Resolves v, log)
  | (Throw e, log) => (Rejects e, log)
  end.

(** An ordinary [function]. *)
Definition plain (body : Eff returned) : Call :=
  match body [] with
  | (Ok (Plain v), log) => (Returns v, log)
  | (Ok (Promised (Ok v)), log) => (Resolves v, log)
  | (Ok (Promised (Throw e)), log) => (Rejects e, log)
  | (Throw e, log) => (Throws e, log)
  end.

(** A default parameter value applies when the argument is [undefined]. *)
Definition default_to (v d : value) : value :=
  match v with
  | VUndefined => d
  | _ => v
  end.

(** The body every [catch] in the program has (only [roomExists] differs):
    an error that carries a response is replaced by [{status, message}], any
    other error is returned as it is. *)
Definition describe_error `{Engine} (error : value) : result value :=
  match prop error "response" with
  | Throw e => Throw e
  | Ok response =>
      if truthy response then
        match prop response "status" with
        | Throw e => Throw e
        | Ok status =>
            match prop response "statusText" with
            | Throw e => Throw e
            | Ok statusText => Ok (VObj [("status", status); ("message", statusText)])
            end
        end
      else Ok error
  end.

(** [response => response.data] *)
Definition response_data `{Engine} (response : value) : result value :=
  prop response "data".

Local Open Scope eff_scope.

(** ** index.js: promise chains

    Every method is an ordinary function: its arguments are evaluated before
    a promise exists, so what throws there is thrown at the caller; the
    handlers passed to [then] and [catch] shape the promise that the
    transport returned. *)
Module Chained.

(** [function Ethercalc(host = 'localhost', port = '8000')] *)
Definition Ethercalc `{Engine} (host port : value) : result Client :=
  let host := default_to host (VStr "localhost") in
  let port := default_to port (VStr "8000") in
  match ToString host with
  | Throw e => Throw e
  | Ok h =>
      match ToString port with
      | Throw e => Throw e
      | Ok p =>
          Ok {| instance := {| baseURL := "http://" ++ h ++ ":" ++ p;
                               default_timeout := VNum 2500 |} |}
      end
  end.

Section Methods.
Context `{Platform}.

Definition getRoom (self : Client) (room : value) : Call :=
  plain (
    room' <- eval (ToString room) ;;
    p <- axios_get (instance self) ("/_/" ++ room') ;;
    ret (Promised (catch_ (then_ p response_data) describe_error))).

Definition createRoom (self : Client) (room snapshot : value) : Call :=
  plain (
    let timeout := {| headers := []; timeout := Some 10000 |} in
    if truthy room then
      room' <- eval (ToString room) ;;
      p <- axios_post (instance self) ("/_/" ++ room')
             (Text (qs_stringify (VObj [("room", room); ("snapshot", snapshot)])))
             timeout ;;
      ret (Promised (catch_ (then_ p response_data) describe_error))
    else
      p <- axios_post (instance self) "/_"
             (Text (qs_stringify (VObj [("snapshot", snapshot)])))
             timeout ;;
      ret (Promised (catch_ (then_ p response_data) describe_error))).

Definition overwrite (self : Client) (room snapshot type : value) : Call :=
  plain (
    let conf :=
      if strict_eq_str type "socialcalc" then
        Some {| headers := [("Content-Type", "text/x-socialcalc")]; timeout := None |}
      else if strict_eq_str type "xlsx" then
        Some {| headers := [("Content-Type",
                  "application/vnd.openxmlformats-officedocument.spreadsheetml.sheet")];
                timeout := None |}
      else if strict_eq_str type "csv" then
        Some {| headers := [("Content-Type", "text/csv")]; timeout := None |}
      else None in
    match conf with
    | None => ret (Plain (new_Error "Format must be one of socialcalc, xlsx or csv!"))
    | Some conf =>
        room' <- eval (ToString room) ;;
        buffer <- eval (Buffer_from snapshot) ;;
        p <- axios_put (instance self) ("/_/" ++ room') (Bytes buffer) conf ;;
        ret (Promised (catch_ (then_ p response_data) describe_error))
    end).

Definition createRoomFromCSVFile (self : Client) (path : value) : Call :=
  plain (
    stream <- eval (fs_createReadStream path) ;;
    p <- axios_post (instance self) "/_/" (Stream stream)
           {| headers := [("Content-Type", "text/csv")]; timeout := None |} ;;
    ret (Promised (catch_ (then_ p response_data) describe_error))).

Definition deleteRoom (self : Client) (room : value) : Call :=
  plain (
    room' <- eval (ToString room) ;;
    p <- axios_delete (instance self) ("/_/" ++ room') ;;
    ret (Promised (catch_ (then_ p (fun response => Ok (VBool true))) describe_error))).

Definition roomExists (self : Client) (room : value) : Call :=
  plain (
    room' <- eval (ToString room) ;;
    p <- axios_get (instance self) ("/_exists/" ++ room') ;;
    ret (Promised (catch_ (then_ p response_data) (fun error => Ok (VBool false))))).

Definition exportRoom (self : Client) (room type : value) : Call :=
  plain (
    type <- eval (toLowerCase type) ;;
    let type :=
      if strict_eq_str type "csv.json" || strict_eq_str type "xlsx"
         || strict_eq_str type "md" || strict_eq_str type "html"
      then type else VStr "csv" in
    room' <- eval (ToString room) ;;
    type' <- eval (ToString type) ;;
    p <- axios_get (instance self) ("/_/" ++ room' ++ "/" ++ type') ;;
    ret (Promised (catch_ (then_ p response_data) describe_error))).

Definition listRooms (self : Client) : Call :=
  plain (
    p <- axios_get (instance self) "/_rooms" ;;
    ret (Promised (catch_ (then_ p response_data) describe_error))).

Definition postCommand (self : Client) (room command : value) : Call :=
  plain (
    room' <- eval (ToString room) ;;
    p <- axios_post (instance self) ("/_/" ++ room')
           (Text (qs_stringify (VObj [("command", command)]))) no_config ;;
    ret (Promised (catch_ (then_ p response_data) describe_error))).

Definition appendRowsFromCSVFile (self : Client) (room path : value) : Call :=
  plain (
    room' <- eval (ToString room) ;;
    stream <- eval (fs_createReadStream path) ;;
    p <- axios_post (instance self) ("/_/" ++ room') (Stream stream)
           {| headers := [("Content-Type", "text/csv")]; timeout := None |} ;;
    ret (Promised (catch_ (then_ p response_data) describe_error))).

Definition getCells (self : Client) (room : value) : Call :=
  plain (
    room' <- eval (ToString room) ;;
    p <- axios_get (instance self) ("/_/" ++ room' ++ "/cells") ;;
    ret (Promised (catch_ (then_ p response_data) describe_error))).

Definition getCellValue (self : Client) (room coord : value) : Call :=
  plain (
    room' <- eval (ToString room) ;;
    coord' <- eval (ToString coord) ;;
    p <- axios_get (instance self) ("/_/" ++ room' ++ "/cells/" ++ coord') ;;
    ret (Promised (catch_ (then_ p response_data) describe_error))).

Definition getHTML (self : Client) (room : value) : Call :=
  plain (
    room' <- eval (ToString room) ;;
    p <- axios_get (instance self) ("/_/" ++ room' ++ "/html") ;;
    ret (Promised (catch_ (then_ p response_data) describe_error))).

End Methods.

(** The public methods with their arguments. *)
Inductive operation : Type :=
| op_getRoom (room : value)
| op_createRoom (room snapshot : value)
| op_overwrite (room snapshot type : value)
| op_createRoomFromCSVFile (path : value)
| op_deleteRoom (room : value)
| op_roomExists (room : value)
| op_exportRoom (room type : value)
| op_listRooms
| op_postCommand (room command : value)
| op_appendRowsFromCSVFile (room path : value)
| op_getCells (room : value)
| op_getCellValue (room coord : value)
| op_getHTML (room : value).

Definition invoke `{Platform} (self : Client) (o : operation) : Call :=
  match o with
  | op_getRoom room => getRoom self room
  | op_createRoom room snapshot => createRoom self room snapshot
  | op_overwrite room snapshot type => overwrite self room snapshot type
  | op_createRoomFromCSVFile path => createRoomFromCSVFile self path
  | op_deleteRoom room => deleteRoom self room
  | op_roomExists room => roomExists self room
  | op_exportRoom room type => exportRoom self room type
  | op_listRooms => listRooms self
  | op_postCommand room command => postCommand self room command
  | op_appendRowsFromCSVFile room path => appendRowsFromCSVFile self room path
  | op_getCells room => getCells self room
  | op_getCellValue room coord => getCellValue self room coord
  | op_getHTML room => getHTML self room
  end.

Definition is_roomExists (o : operation) : bool :=
  match o with op_roomExists _ => true | _ => false end.

Definition is_createRoom (o : operation) : bool :=
  match o with op_createRoom _ _ => true | _ => false end.

End Chained.

(** ** The async/await implementation

    Every method is an [async function], so the caller always gets a
    promise; what throws inside a [try] block (argument evaluation included)
    reaches the [catch] block of that method. *)
Module Async.

Definition DEFAULT_SNAPSHOT : value := VStr "...".
Definition DEFAULT_HOST : value := VStr "localhost".
Definition DEFAULT_PORT : value := VNum 8000.
Definition DEFAULT_PROTOCOL : value := VStr "http".
Definition DEFAULT_TIMEOUT : value := VNum 2500.

Definition SOCIALCALC : string := "socialcalc".
Definition XLSX : string := "xlsx".
Definition CSV : string := "csv".

Definition Ethercalc `{Engine} (host port protocol timeout : value) : result Client :=
  let host := default_to host DEFAULT_HOST in
  let port := default_to port DEFAULT_PORT in
  let protocol := default_to protocol DEFAULT_PROTOCOL in
  let timeout := default_to timeout DEFAULT_TIMEOUT in
  match ToString protocol with
  | Throw e => Throw e
  | Ok pr =>
      match ToString host with
      | Throw e => Throw e
      | Ok h =>
          match ToString port with
          | Throw e => Throw e
          | Ok p =>
              Ok {| instance := {| baseURL := pr ++ "://" ++ h ++ ":" ++ p;
                                   default_timeout := timeout |} |}
          end
      end
  end.

Section Methods.
Context `{Platform}.

(** [catch (error) { if (error.response) {...} return error; }] *)
Definition on_error (error : value) : Eff value := eval (describe_error error).

Definition getRoom (self : Client) (room : value) : Call :=
  async (
    try (
      room' <- eval (ToString room) ;;
      response <- await (axios_get (instance self) ("/_/" ++ room')) ;;
      eval (prop response "data"))
    catch on_error).

Definition createRoom (self : Client) (room snapshot : value) : Call :=
  async (
    let timeout := {| headers := []; timeout := Some 10000 |} in
    if truthy room then
      try (
        room' <- eval (ToString room) ;;
        response <- await (axios_post (instance self) ("/_/" ++ room')
                             (Text (qs_stringify (VObj [("room", room); ("snapshot", snapshot)])))
                             timeout) ;;
        eval (prop response "data"))
      catch on_error
    else
      let snapshot := or_else snapshot DEFAULT_SNAPSHOT in
      try (
        response <- await (axios_post (instance self) "/_"
                             (Text (qs_stringify (VObj [("snapshot", snapshot)])))
                             timeout) ;;
        eval (prop response "data"))
      catch on_error).

Definition overwrite (self : Client) (room snapshot type : value) : Call :=
  async (
    let conf :=
      if strict_eq_str type SOCIALCALC then
        Some {| headers := [("Content-Type", "text/x-socialcalc")]; timeout := None |}
      else if strict_eq_str type XLSX then
        Some {| headers := [("Content-Type",
                  "application/vnd.openxmlformats-officedocument.spreadsheetml.sheet")];
                timeout := None |}
      else if strict_eq_str type CSV then
        Some {| headers := [("Content-Type", "text/csv")]; timeout := None |}
      else None in
    match conf with
    | None => ret (new_Error "Format must be one of socialcalc, xlsx or csv!")
    | Some conf =>
        try (
          room' <- eval (ToString room) ;;
          buffer <- eval (Buffer_from snapshot) ;;
          response <- await (axios_put (instance self) ("/_/" ++ room') (Bytes buffer) conf) ;;
          eval (prop response "data"))
        catch on_error
    end).

Definition createRoomFromCSVFile (self : Client) (path : value) : Call :=
  async (
    try (
      stream <- eval (fs_createReadStream path) ;;
      response <- await (axios_post (instance self) "/_/" (Stream stream)
                           {| headers := [("Content-Type", "text/csv")]; timeout := None |}) ;;
      eval (prop response "data"))
    catch on_error).

Definition deleteRoom (self : Client) (room : value) : Call :=
  async (
    try (
      room' <- eval (ToString room) ;;
      response <- await (axios_delete (instance self) ("/_/" ++ room')) ;;
      if truthy response then ret (VBool true) else ret VUndefined)
    catch on_error).

Definition roomExists (self : Client) (room : value) : Call :=
  async (
    try (
      room' <- eval (ToString room) ;;
      response <- await (axios_get (instance self) ("/_exists/" ++ room')) ;;
      if truthy response then eval (prop response "data") else ret VUndefined)
    catch (fun error => ret (VBool false))).

Definition exportRoom (self : Client) (room type : value) : Call :=
  async (
    type <- eval (toLowerCase type) ;;
    let type :=
      if strict_eq_str type "csv.json" || strict_eq_str type XLSX
         || strict_eq_str type "md" || strict_eq_str type "html"
      then type else VStr CSV in
    try (
      room' <- eval (ToString room) ;;
      type' <- eval (ToString type) ;;
      response <- await (axios_get (instance self) ("/_/" ++ room' ++ "/" ++ type')) ;;
      eval (prop response "data"))
    catch on_error).

Definition listRooms (self : Client) : Call :=
  async (
    try (
      response <- await (axios_get (instance self) "/_rooms") ;;
      eval (prop response "data"))
    catch on_error).

Definition postCommand (self : Client) (room command : value) : Call :=
  async (
    try (
      room' <- eval (ToString room) ;;
      response <- await (axios_post (instance self) ("/_/" ++ room')
                           (Text (qs_stringify (VObj [("command", command)]))) no_config) ;;
      eval (prop response "data"))
    catch on_error).

Definition appendRowsFromCSVFile (self : Client) (room path : value) : Call :=
  async (
    try (
      room' <- eval (ToString room) ;;
      stream <- eval (fs_createReadStream path) ;;
      response <- await (axios_post (instance self) ("/_/" ++ room') (Stream stream)
                           {| headers := [("Content-Type", "text/csv")]; timeout := None |}) ;;
      eval (prop response "data"))
    catch on_error).

Definition getCells (self : Client) (room : value) : Call :=
  async (
    try (
      room' <- eval (ToString room) ;;
      response <- await (axios_get (instance self) ("/_/" ++ room' ++ "/cells")) ;;
      eval (prop response "data"))
    catch on_error).

Definition getCellValue (self : Client) (room coord : value) : Call :=
  async (
    try (
      room' <- eval (ToString room) ;;
      coord' <- eval (ToString coord) ;;
      response <- await (axios_get (instance self) ("/_/" ++ room' ++ "/cells/" ++ coord')) ;;
      eval (prop response "data"))
    catch on_error).

Definition getHTML (self : Client) (room : value) : Call :=
  async (
    try (
      room' <- eval (ToString room) ;;
      response <- await (axios_get (instance self) ("/_/" ++ room' ++ "/html")) ;;
      eval (prop response "data"))
    catch on_error).

Definition getCSV (self : Client) (room : value) : Call :=
  async (
    try (
      room' <- eval (ToString room) ;;
      response <- await (axios_get (instance self) ("/_/" ++ room' ++ "/csv")) ;;
      eval (prop response "data"))
    catch on_error).

Definition getJSON (self : Client) (room : value) : Call :=
  async (
    try (
      room' <- eval (ToString room) ;;
      response <- await (axios_get (instance self) ("/_/" ++ room' ++ "/csv.json")) ;;
      eval (prop response "data"))
    catch on_error).

End Methods.

(** The public methods with their arguments. *)
Inductive operation : Type :=
| op_getRoom (room : value)
| op_createRoom (room snapshot : value)
| op_overwrite (room snapshot type : value)
| op_createRoomFromCSVFile (path : value)
| op_deleteRoom (room : value)
| op_roomExists (room : value)
| op_exportRoom (room type : value)
| op_listRooms
| op_postCommand (room command : value)
| op_appendRowsFromCSVFile (room path : value)
| op_getCells (room : value)
| op_getCellValue (room coord : value)
| op_getHTML (room : value)
| op_getCSV (room : value)
| op_getJSON (room : value).

Definition invoke `{Platform} (self : Client) (o : operation) : Call :=
  match o with
  | op_getRoom room => getRoom self room
  | op_createRoom room snapshot => createRoom self room snapshot
  | op_overwrite room snapshot type => overwrite self room snapshot type
  | op_createRoomFromCSVFile path => createRoomFromCSVFile self path
  | op_deleteRoom room => deleteRoom self room
  | op_roomExists room => roomExists self room
  | op_exportRoom room type => exportRoom self room type
  | op_listRooms => listRooms self
  | op_postCommand room command => postCommand self room command
  | op_appendRowsFromCSVFile room path => appendRowsFromCSVFile self room path
  | op_getCells room => getCells self room
  | op_getCellValue room coord => getCellValue self room coord
  | op_getHTML room => getHTML self room
  | op_getCSV room => getCSV self room
  | op_getJSON room => getJSON self room
  end.

Definition is_roomExists (o : operation) : bool :=
  match o with op_roomExists _ => true | _ => false end.

Definition is_createRoom (o : operation) : bool :=
  match o with op_createRoom _ _ => true | _ => false end.

End Async.

(** ** Both implementations side by side *)

(** A method call of either implementation. *)
Inductive call : Type :=
| in_index_js (o : Chained.operation)
| in_async (o : Async.operation).

Definition run `{Platform} (self : Client) (c : call) : Call :=
  match c with
  | in_index_js o => Chained.invoke self o
  | in_async o => Async.invoke self o
  end.

Definition is_roomExists (c : call) : bool :=
  match c with
  | in_index_js o => Chained.is_roomExists o
  | in_async o => Async.is_roomExists o
  end.

Definition is_createRoom (c : call) : bool :=
  match c with
  | in_index_js o => Chained.is_createRoom o
  | in_async o => Async.is_createRoom o
  end.

(** ** What the specification promises, in its words *)

(** The normalized error descriptor [{status, message}]. *)
Definition status_info (status : Z) (statusText : string) : value :=
  VObj [("status", VNum status); ("message", VStr statusText)].

(** Result normalization: a 2xx answer gives the decoded body, any other
    answer the descriptor, no answer the transport failure itself.  The call
    is fulfilled with that value. *)
Definition normalized (x : exchange) : value :=
  match x with
  | Answered status statusText body =>
      if is_2xx status then body else status_info status statusText
  | Unanswered code message => transport_failure code message
  end.

(** A request that did not end in a 2xx answer. *)
Definition failed (x : exchange) : bool :=
  match x with
  | Answered status _ _ => negb (is_2xx status)
  | Unanswered _ _ => true
  end.

(** The export type after normalization: lower-cased, and [csv] unless it is
    one of the four recognized types. *)
Definition export_type (type : string) : string :=
  let t := lowercase type in
  if existsb (String.eqb t) ["csv.json"; "xlsx"; "md"; "html"] then t else "csv".

Definition is_string (v : value) : bool :=
  match v with VStr _ => true | _ => false end.

(** The value has no [toLowerCase] to call: it is [undefined], [null], a
    boolean, a number, an array, or an object whose own member of that name
    is missing or no function. *)
Definition has_no_toLowerCase `{Engine} (v : value) : bool :=
  match v with
  | VStr _ | VHost _ => false
  | VObj fields | VErr _ _ fields =>
      match try_method (lookup "toLowerCase" fields) v with
      | None => true
      | Some _ => false
      end
  | VUndefined | VNull | VBool _ | VNum _ | VArr _ => true
  end.

Definition is_absent (v : value) : bool :=
  match v with VUndefined | VNull => true | _ => false end.

Definition get_request (path : string) : Request :=
  {| method := GET; url := path; data := NoData; config := no_config |}.

Definition delete_request (path : string) : Request :=
  {| method := DELETE; url := path; data := NoData; config := no_config |}.

Definition format_error : value :=
  new_Error "Format must be one of socialcalc, xlsx or csv!".

(** The content type documented for each overwrite format. *)
Definition documented_content_types : list (string * string) :=
  [("socialcalc", "text/x-socialcalc");
   ("xlsx", "application/vnd.openxmlformats-officedocument.spreadsheetml.sheet");
   ("csv", "text/csv")].

Definition put_request (path : string) (buffer : list Byte.byte)
    (content_type : string) : Request :=
  {| method := PUT; url := path; data := Bytes buffer;
     config := {| headers := [("Content-Type", content_type)]; timeout := None |} |}.

(** A form POST under the extended timeout. *)
Definition create_request `{Platform} (path : string) (form : value) : Request :=
  {| method := POST; url := path; data := Text (qs_stringify form);
     config := {| headers := []; timeout := Some 10000 |} |}.

(** The calls that create a room. *)
Definition creation_style (c : call) : bool :=
  match c with
  | in_index_js (Chained.op_createRoom _ _)
  | in_index_js (Chained.op_createRoomFromCSVFile _)
  | in_async (Async.op_createRoom _ _)
  | in_async (Async.op_createRoomFromCSVFile _) => true
  | _ => false
  end.

(** ** The form encoder on a list of commands

    What the external encoder [qs] makes, with its default options, of an
    object whose one key holds an array of strings: one pair per item, in
    array order, joined by [&]; each pair is the key with the index of the
    item in brackets, [=], and the item; key and item are percent-encoded,
    every byte but letters, digits, [-], [.], [_] and [~]. *)

Definition unreserved (c : ascii) : bool :=
  let n := nat_of_ascii c in
  (Nat.leb 48 n && Nat.leb n 57) || (Nat.leb 65 n && Nat.leb n 90)
  || (Nat.leb 97 n && Nat.leb n 122)
  || Nat.eqb n 45 || Nat.eqb n 46 || Nat.eqb n 95 || Nat.eqb n 126.

Definition hex_digit (n : nat) : ascii :=
  nth n ["0"; "1"; "2"; "3"; "4"; "5"; "6"; "7"; "8"; "9";
         "A"; "B"; "C"; "D"; "E"; "F"]%char "0"%char.

Definition encode_char (c : ascii) : string :=
  if unreserved c then String c EmptyString
  else
    let n := nat_of_ascii c in
    String "%" (String (hex_digit (Nat.div n 16)) (String (hex_digit (Nat.modulo n 16)) EmptyString)).

Fixpoint qs_encode (s : string) : string :=
  match s with
  | EmptyString => EmptyString
  | String c rest => encode_char c ++ qs_encode rest
  end.

Definition qs_pair (key : string) (i : Z) (item : string) : string :=
  qs_encode (key ++ "[" ++ decimal i ++ "]") ++ "=" ++ qs_encode item.

Fixpoint qs_pairs (key : string) (i : Z) (items : list string) : list string :=
  match items with
  | [] => []
  | item :: rest => qs_pair key i item :: qs_pairs key (i + 1) rest
  end.

Definition qs_array (key : string) (items : list string) : string :=
  String.concat "&" (qs_pairs key 0 items).

(** The platform's encoder does with a list of commands what [qs] does. *)
Definition encodes_commands_like_qs `{Platform} : Prop :=
  forall commands : list string,
    qs_stringify (VObj [("command", VArr (map VStr commands))])
    = qs_array "command" commands.

(** *** Reading a form body back

    The values of a form body in the order in which they stand in it: the
    body is cut at every [&], of each piece what follows the first [=] is
    kept, and the percent-encoding is undone. *)

Definition hex_value (c : ascii) : option nat :=
  let n := nat_of_ascii c in
  if Nat.leb 48 n && Nat.leb n 57 then Some (n - 48)%nat
  else if Nat.leb 65 n && Nat.leb n 70 then Some (n - 55)%nat
  else if Nat.leb 97 n && Nat.leb n 102 then Some (n - 87)%nat
  else None.

Fixpoint percent_decode (s : string) : string :=
  match s with
  | EmptyString => EmptyString
  | String c rest =>
      if Ascii.eqb c "%" then
        match rest with
        | String h (String l rest') =>
            match hex_value h, hex_value l with
            | Some a, Some b => String (ascii_of_nat (16 * a + b)%nat) (percent_decode rest')
            | _, _ => String c (percent_decode rest)
            end
        | _ => String c (percent_decode rest)
        end
      else String c (percent_decode rest)
  end.

(** The still encoded values; [in_value] tells whether the [=] of the
    current piece has been passed. *)
Fixpoint raw_values (in_value : bool) (s : string) : list string :=
  match s with
  | EmptyString => if in_value then [EmptyString] else []
  | String c rest =>
      if in_value then
        if Ascii.eqb c "&" then EmptyString :: raw_values false rest
        else
          match raw_values true rest with
          | v :: vs => String c v :: vs
          | [] => [String c EmptyString]
          end
      else if Ascii.eqb c "=" then raw_values true rest
      else raw_values false rest
  end.

Definition form_values (body : string) : list string :=
  map percent_decode (raw_values false body).

(** A string without [&] and [=]. *)
Fixpoint no_separator (s : string) : bool :=
  match s with
  | EmptyString => true
  | String c rest => negb (Ascii.eqb c "&") && negb (Ascii.eqb c "=") && no_separator rest
  end.

(** ** Test doubles

    An engine with one host object of interest: number 0 is the String
    object [new String('HTML')]; every other identifier is an object without
    methods.  A platform for concrete
    runs: an encoder that does what [qs] does on objects whose values are
    strings, numbers, booleans, [null], [undefined] or arrays of those
    (pairs joined by [&], array items under [key[i]], [undefined] skipped,
    [null] empty, keys and values percent-encoded); [Buffer.from] and
    [fs.createReadStream] that accept strings only; a network that gives one
    fixed exchange. *)

Definition stub_engine : Engine :=
  {| object_get := fun _ _ => VUndefined;
     object_call := fun id name =>
       match id with
       | O => if String.eqb name "toLowerCase" then Ok (VStr "html")
              else Throw (TypeError (name ++ " is not a function"))
       | _ => Throw (TypeError (name ++ " is not a function"))
       end;
     is_callable := fun _ => false;
     function_call := fun _ _ => Throw (TypeError "not a function");
     object_ToString := fun id =>
       match id with
       | O => Ok "HTML"
       | _ => Ok "[object Object]"
       end;
     large_number_text := fun _ => "1e+21" |}.

(** The same engine with one more host object: number 1 is a function that
    throws [null]. *)
Definition throwing_engine : Engine :=
  {| object_get := @object_get stub_engine;
     object_call := @object_call stub_engine;
     is_callable := fun id => Nat.eqb id 1;
     function_call := fun id this =>
       if Nat.eqb id 1 then Throw VNull else @function_call stub_engine id this;
     object_ToString := fun id =>
       if Nat.eqb id 1 then Ok "function () { throw null; }"
       else @object_ToString stub_engine id;
     large_number_text := @large_number_text stub_engine |}.

Definition text_of (v : value) : string :=
  match @ToString stub_engine v with Ok s => s | Throw _ => EmptyString end.

Fixpoint indexed_pairs (k : string) (i : Z) (items : list value) : list string :=
  match items with
  | [] => []
  | VUndefined :: rest => indexed_pairs k (i + 1) rest
  | VNull :: rest =>
      (qs_encode (k ++ "[" ++ decimal i ++ "]") ++ "=") :: indexed_pairs k (i + 1) rest
  | x :: rest => qs_pair k i (text_of x) :: indexed_pairs k (i + 1) rest
  end.

Definition stub_pairs (field : string * value) : list string :=
  match field with
  | (k, VUndefined) => []
  | (k, VNull) => [qs_encode k ++ "="]
  | (k, VArr items) => indexed_pairs k 0 items
  | (k, v) => [qs_encode k ++ "=" ++ qs_encode (text_of v)]
  end.

Definition stub_stringify (v : value) : string :=
  match v with
  | VObj fields => String.concat "&" (flat_map stub_pairs fields)
  | _ => EmptyString
  end.

Definition stub_Buffer_from (v : value) : result (list Byte.byte) :=
  match v with
  | VStr s => Ok (list_byte_of_string s)
  | _ => Throw (TypeError "The first argument must be of type string")
  end.

Definition stub_createReadStream (v : value) : result ReadStream :=
  match v with
  | VStr s => Ok (file_stream v)
  | _ => Throw (TypeError "The path argument must be of type string")
  end.

Definition stub (x : exchange) : Platform :=
  {| engine := stub_engine;
     qs_stringify := stub_stringify;
     Buffer_from := stub_Buffer_from;
     fs_createReadStream := stub_createReadStream;
     network := fun _ _ => x |}.

Definition not_found : exchange := Answered 404 "Not Found" VNull.
Definition connection_refused : exchange :=
  Unanswered "ECONNREFUSED" "connect ECONNREFUSED 127.0.0.1:8000".
Definition ok_with (body : value) : exchange := Answered 200 "OK" body.

(** [new Ethercalc()] of either implementation builds this client. *)
Definition local_client : Client :=
  {| instance := {| baseURL := "http://localhost:8000"; default_timeout := VNum 2500 |} |}.

(** ** Comparing the two implementations *)

(** The async method that took the place of an [index.js] method. *)
Definition to_async (o : Chained.operation) : Async.operation :=
  match o with
  | Chained.op_getRoom room => Async.op_getRoom room
  | Chained.op_createRoom room snapshot => Async.op_createRoom room snapshot
  | Chained.op_overwrite room snapshot type => Async.op_overwrite room snapshot type
  | Chained.op_createRoomFromCSVFile path => Async.op_createRoomFromCSVFile path
  | Chained.op_deleteRoom room => Async.op_deleteRoom room
  | Chained.op_roomExists room => Async.op_roomExists room
  | Chained.op_exportRoom room type => Async.op_exportRoom room type
  | Chained.op_listRooms => Async.op_listRooms
  | Chained.op_postCommand room command => Async.op_postCommand room command
  | Chained.op_appendRowsFromCSVFile room path => Async.op_appendRowsFromCSVFile room path
  | Chained.op_getCells room => Async.op_getCells room
  | Chained.op_getCellValue room coord => Async.op_getCellValue room coord
  | Chained.op_getHTML room => Async.op_getHTML room
  end.

(** [createRoom] without a room and without a snapshot: the one call in
    which the async implementation substitutes [DEFAULT_SNAPSHOT]. *)
Definition takes_default_snapshot (o : Chained.operation) : bool :=
  match o with
  | Chained.op_createRoom room snapshot => negb (truthy room) && negb (truthy snapshot)
  | _ => false
  end.

Definition is_deleteRoom (c : call) : bool :=
  match c with
  | in_index_js (Chained.op_deleteRoom _) | in_async (Async.op_deleteRoom _) => true
  | _ => false
  end.

Definition is_exportRoom (o : Async.operation) : bool :=
  match o with Async.op_exportRoom _ _ => true | _ => false end.


(** How a promise that settled as [r] looks to the caller. *)
Definition delivered (r : result value) : outcome :=
  match r with
  | Ok v => Resolves v
  | Throw e => Rejects e
  end.


(** A streamed upload: the file under [text/csv], no timeout of its own. *)
Definition upload_request (path : string) (stream : ReadStream) : Request :=
  {| method := POST; url := path; data := Stream stream;
     config := {| headers := [("Content-Type", "text/csv")]; timeout := None |} |}.

(** The path lies under the [/_] prefix of the service. *)
Definition under_api (path : string) : bool := String.prefix "/_" path.

(** * Properties *)

(** ** The catch block and the two ways of shaping a settled request *)

Lemma describe_http_error `{Engine} status statusText body :
  describe_error (http_error status statusText body) = Ok (status_info status statusText).
Proof. reflexivity. Qed.

Lemma describe_transport_failure `{Engine} code message :
  describe_error (transport_failure code message) = Ok (transport_failure code message).
Proof. reflexivity. Qed.

Lemma response_data_of_response `{Engine} status statusText body :
  response_data (response_object status statusText body) = Ok body.
Proof. reflexivity. Qed.

Lemma truthy_response status statusText body :
  truthy (response_object status statusText body) = true.
Proof. reflexivity. Qed.

(** [p.then(response => response.data).catch(...)] on a settled request. *)
Lemma chained_shape `{Engine} (x : exchange) :
  catch_ (then_ (settle x) response_data) describe_error = Ok (normalized x).
Proof.
  destruct x as [status statusText body | code message]; simpl.
  - destruct (is_2xx status); reflexivity.
  - reflexivity.
Qed.

Section Shaping.
Context `{Platform}.

(** [try { const response = await ...; return response.data } catch ...] *)
Lemma async_shape (inst : AxiosInstance) (req : Request) (log : list Request) :
  (try (response <- await (axios_request inst req) ;; eval (prop response "data"))
   catch Async.on_error) log
  = (Ok (normalized (network inst req)), (log ++ [req])%list).
Proof.
  unfold try_catch, bind, await, axios_request, eval, Async.on_error.
  destruct (network inst req) as [status statusText body | code message]; simpl.
  - destruct (is_2xx status); reflexivity.
  - reflexivity.
Qed.

End Shaping.

#[local] Ltac run_method :=
  unfold plain, async, bind, eval, ret, await, try_catch,
    axios_get, axios_delete, axios_post, axios_put, axios_request; simpl.

Section RoomExists.
Context `{Platform} (self : Client).

(** C3.  [roomExists] is fulfilled with the decoded body of a successful
    response and with [false] on every failure, whether the server answered
    with an error status or no response was received; it never gives an
    error object.  Both implementations issue one GET on [/_exists/{room}]. *)
Theorem roomExists_body_or_false (room : string) :
  let req := get_request ("/_exists/" ++ room) in
  let expected :=
    match network (instance self) req with
    | Answered status _ body => if is_2xx status then body else VBool false
    | Unanswered _ _ => VBool false
    end in
  Chained.roomExists self (VStr room) = (Resolves expected, [req])
  /\ Async.roomExists self (VStr room) = (Resolves expected, [req]).
Proof.
  intros req expected. subst req expected.
  unfold Chained.roomExists, Async.roomExists, get_request. run_method.
  destruct (network _ _) as [status statusText body | code message]; simpl.
  - destruct (is_2xx status); split; reflexivity.
  - split; reflexivity.
Qed.

End RoomExists.

Section DeleteRoom.
Context `{Platform} (self : Client).

(** C8.  [deleteRoom] is fulfilled with [true] whenever the DELETE request
    is answered successfully, whatever the status and the body of that
    response; a failure goes through the uniform normalization: an error
    answer gives [{status, message}], no answer gives the transport failure
    as it is. *)
Theorem deleteRoom_true_on_any_response (room : string) :
  let req := delete_request ("/_/" ++ room) in
  let expected :=
    match network (instance self) req with
    | Answered status statusText _ =>
        if is_2xx status then VBool true else status_info status statusText
    | Unanswered code message => transport_failure code message
    end in
  Chained.deleteRoom self (VStr room) = (Resolves expected, [req])
  /\ Async.deleteRoom self (VStr room) = (Resolves expected, [req]).
Proof.
  intros req expected. subst req expected.
  unfold Chained.deleteRoom, Async.deleteRoom, delete_request, Async.on_error. run_method.
  destruct (network _ _) as [status statusText body | code message]; simpl.
  - destruct (is_2xx status); split; reflexivity.
  - split; reflexivity.
Qed.

End DeleteRoom.

(** ** Construction *)

(** Without arguments both constructors build the same client; the async
    one takes the instance timeout from its fourth argument. *)
Lemma Ethercalc_defaults `{Engine} :
  Chained.Ethercalc VUndefined VUndefined = Ok local_client
  /\ Async.Ethercalc VUndefined VUndefined VUndefined VUndefined = Ok local_client.
Proof. split; reflexivity. Qed.

Lemma index_js_timeout_is_fixed `{Engine} (host port : value) (self : Client) :
  Chained.Ethercalc host port = Ok self ->
  default_timeout (instance self) = VNum 2500.
Proof.
  unfold Chained.Ethercalc.
  destruct (ToString _); [| discriminate].
  destruct (ToString _); [| discriminate].
  intros Hself. injection Hself as <-. reflexivity.
Qed.

Lemma async_timeout_is_configured `{Engine} (host port protocol timeout : value) (self : Client) :
  Async.Ethercalc host port protocol timeout = Ok self ->
  default_timeout (instance self) = default_to timeout (VNum 2500).
Proof.
  unfold Async.Ethercalc.
  destruct (ToString _); [| discriminate].
  destruct (ToString _); [| discriminate].
  destruct (ToString _); [| discriminate].
  intros Hself. injection Hself as <-. reflexivity.
Qed.

(** ** Every method at once *)

#[local] Ltac split_on_arguments :=
  repeat match goal with
  | |- context [ToString ?v] => destruct (ToString v) eqn:?; simpl
  | |- context [toLowerCase ?v] => destruct (toLowerCase v) eqn:?; simpl
  | |- context [Buffer_from ?v] => destruct (Buffer_from v) eqn:?; simpl
  | |- context [fs_createReadStream ?v] => destruct (fs_createReadStream v) eqn:?; simpl
  | |- context [truthy ?v] => destruct (truthy v) eqn:?; simpl
  | |- context [strict_eq_str ?v ?s] => destruct (strict_eq_str v s) eqn:?; simpl
  | |- context [describe_error ?e] => is_var e; destruct (describe_error e) eqn:?; simpl
  end.

#[local] Ltac settle_request :=
  try match goal with
  | |- context [network ?i ?r] =>
      let Hnet := fresh "Hnet" in
      destruct (network i r) as [status statusText body | code message] eqn:Hnet; simpl;
      try (destruct (is_2xx status) eqn:?; simpl)
  end;
  let Hreq := fresh "Hreq" in
  intros Hreq;
  first
    [ discriminate Hreq
    | injection Hreq as <-;
      match goal with Hnet : network _ _ = _ |- _ => rewrite Hnet end;
      simpl;
      repeat match goal with H2 : is_2xx _ = _ |- _ => rewrite H2; clear H2 end;
      simpl; intros; try discriminate; try reflexivity ].

Section EveryMethod.
Context `{Platform} (self : Client).

Lemma index_js_failed_request (o : Chained.operation) (req : Request) :
  Chained.is_roomExists o = false ->
  requests (Chained.invoke self o) = [req] ->
  failed (network (instance self) req) = true ->
  result_of (Chained.invoke self o) = Resolves (normalized (network (instance self) req)).
Proof.
  unfold requests, result_of.
  destruct o; simpl; try discriminate; intros _;
    unfold Chained.getRoom, Chained.createRoom, Chained.overwrite,
      Chained.createRoomFromCSVFile, Chained.deleteRoom, Chained.exportRoom,
      Chained.listRooms, Chained.postCommand, Chained.appendRowsFromCSVFile,
      Chained.getCells, Chained.getCellValue, Chained.getHTML;
    run_method; split_on_arguments; settle_request.
Qed.

Lemma async_failed_request (o : Async.operation) (req : Request) :
  Async.is_roomExists o = false ->
  requests (Async.invoke self o) = [req] ->
  failed (network (instance self) req) = true ->
  result_of (Async.invoke self o) = Resolves (normalized (network (instance self) req)).
Proof.
  unfold requests, result_of.
  destruct o; simpl; try discriminate; intros _;
    unfold Async.getRoom, Async.createRoom, Async.overwrite,
      Async.createRoomFromCSVFile, Async.deleteRoom, Async.exportRoom,
      Async.listRooms, Async.postCommand, Async.appendRowsFromCSVFile,
      Async.getCells, Async.getCellValue, Async.getHTML, Async.getCSV,
      Async.getJSON, Async.on_error;
    run_method; split_on_arguments; settle_request.
Qed.

Lemma failed_request (c : call) (req : Request) :
  is_roomExists c = false ->
  requests (run self c) = [req] ->
  failed (network (instance self) req) = true ->
  result_of (run self c) = Resolves (normalized (network (instance self) req)).
Proof.
  destruct c as [o | o]; simpl.
  - apply index_js_failed_request.
  - apply async_failed_request.
Qed.

(** Which timeout a method puts on its request. *)
Lemma request_timeout (c : call) (req : Request) :
  In req (requests (run self c)) ->
  timeout (config req) = if is_createRoom c then Some 10000 else None.
Proof.
  unfold requests.
  destruct c as [o | o]; destruct o; simpl;
    unfold Chained.getRoom, Chained.createRoom, Chained.overwrite,
      Chained.createRoomFromCSVFile, Chained.deleteRoom, Chained.roomExists,
      Chained.exportRoom, Chained.listRooms, Chained.postCommand,
      Chained.appendRowsFromCSVFile, Chained.getCells, Chained.getCellValue,
      Chained.getHTML,
      Async.getRoom, Async.createRoom, Async.overwrite,
      Async.createRoomFromCSVFile, Async.deleteRoom, Async.roomExists,
      Async.exportRoom, Async.listRooms, Async.postCommand,
      Async.appendRowsFromCSVFile, Async.getCells, Async.getCellValue,
      Async.getHTML, Async.getCSV, Async.getJSON, Async.on_error;
    run_method; split_on_arguments;
    try match goal with
    | |- context [network ?i ?r] =>
        destruct (network i r) as [status statusText body | code message]; simpl;
        try (destruct (is_2xx status); simpl)
    end;
    intros Hin; simpl in Hin;
    repeat match goal with
    | Hin : _ \/ _ |- _ => destruct Hin as [Hin | Hin]
    | Hin : False |- _ => destruct Hin
    end;
    subst req; reflexivity.
Qed.

(** C1, as the code has it.  When the server answers a request with a
    status outside 2xx, the call is fulfilled, never rejected: with
    [{status, message}] carrying the numeric status and the reason phrase for
    every method except [roomExists], and with [false] for [roomExists]. *)
Theorem http_error_normalized (c : call) (req : Request)
    (status : Z) (statusText : string) (body : value) :
  requests (run self c) = [req] ->
  network (instance self) req = Answered status statusText body ->
  is_2xx status = false ->
  result_of (run self c)
  = Resolves (if is_roomExists c then VBool false else status_info status statusText).
Proof.
  intros Hreq Hnet Hstatus.
  destruct (is_roomExists c) eqn:Hc.
  - revert Hreq. unfold requests, result_of.
    destruct c as [o | o]; destruct o; try discriminate Hc; simpl;
      unfold Chained.roomExists, Async.roomExists;
      run_method; split_on_arguments;
      try match goal with
      | |- context [network ?i ?r] =>
          destruct (network i r) as [status' statusText' body' | code message] eqn:Hnet';
          simpl; try (destruct (is_2xx status') eqn:Hstatus'; simpl)
      end;
      intros Hreq; first [discriminate Hreq | injection Hreq as <-];
      try reflexivity;
      rewrite Hnet' in Hnet; injection Hnet as <- _ _; congruence.
  - rewrite (failed_request c req Hc Hreq).
    + rewrite Hnet. simpl. rewrite Hstatus. reflexivity.
    + rewrite Hnet. simpl. rewrite Hstatus. reflexivity.
Qed.

(** C4.  For every method other than [roomExists], when the request gets no
    response the transport rejects with its failure object and the call is
    fulfilled with that very object. *)
Theorem transport_failure_passes_through (c : call) (req : Request)
    (code message : string) :
  is_roomExists c = false ->
  requests (run self c) = [req] ->
  network (instance self) req = Unanswered code message ->
  settle (network (instance self) req) = Throw (transport_failure code message)
  /\ result_of (run self c) = Resolves (transport_failure code message).
Proof.
  intros Hc Hreq Hnet. split.
  - rewrite Hnet. reflexivity.
  - rewrite (failed_request c req Hc Hreq); rewrite Hnet; reflexivity.
Qed.

(** C7, as the code has it.  Only [createRoom], in both of its branches,
    puts the extended timeout of 10000 ms on its request; every other method,
    [createRoomFromCSVFile] included, passes no timeout, so the one the
    instance was created with applies. *)
Theorem only_createRoom_extends_timeout (c : call) (req : Request) :
  In req (requests (run self c)) ->
  timeout (config req) = (if is_createRoom c then Some 10000 else None)
  /\ effective_timeout (instance self) req
     = (if is_createRoom c then VNum 10000 else default_timeout (instance self)).
Proof.
  intros Hin. pose proof (request_timeout c req Hin) as Ht.
  split; [exact Ht |].
  unfold effective_timeout. rewrite Ht. destruct (is_createRoom c); reflexivity.
Qed.

End EveryMethod.

(** ** overwrite *)

Lemma strict_eq_str_false (s lit : string) : s <> lit -> strict_eq_str (VStr s) lit = false.
Proof. intros Hne. simpl. apply String.eqb_neq. exact Hne. Qed.

Section Overwrite.
Context `{Platform} (self : Client).

(** C2, as the code has it.  For a [type] that is none of [socialcalc],
    [xlsx], [csv] (compared exactly, case included) no request is issued and
    the caller gets the Error value: [index.js] returns it from the call
    itself, the async implementation returns a promise fulfilled with it.
    For each accepted [type] the PUT request carries exactly the documented
    Content-Type header. *)
Theorem overwrite_checks_format (room snapshot : value) :
  (forall type : string,
      type <> "socialcalc" -> type <> "xlsx" -> type <> "csv" ->
      Chained.overwrite self room snapshot (VStr type) = (Returns format_error, [])
      /\ Async.overwrite self room snapshot (VStr type) = (Resolves format_error, []))
  /\ (forall (type content_type path : string) (buffer : list Byte.byte),
      In (type, content_type) documented_content_types ->
      ToString room = Ok path ->
      Buffer_from snapshot = Ok buffer ->
      requests (Chained.overwrite self room snapshot (VStr type))
      = [put_request ("/_/" ++ path) buffer content_type]
      /\ requests (Async.overwrite self room snapshot (VStr type))
         = [put_request ("/_/" ++ path) buffer content_type]).
Proof.
  split.
  - intros type H1 H2 H3.
    unfold Chained.overwrite, Async.overwrite, Async.SOCIALCALC, Async.XLSX, Async.CSV.
    rewrite !(strict_eq_str_false type) by assumption.
    split; reflexivity.
  - intros type content_type path buffer Hin Hroom Hbuffer.
    unfold requests, Chained.overwrite, Async.overwrite, Async.on_error.
    simpl in Hin.
    destruct Hin as [Hin | [Hin | [Hin | []]]]; injection Hin as <- <-;
      run_method; rewrite Hroom; simpl; rewrite Hbuffer; simpl;
      destruct (network _ _) as [status statusText body | code message]; simpl;
      try destruct (is_2xx status); split; reflexivity.
Qed.

End Overwrite.

(** ** exportRoom *)

Example export_type_examples :
  export_type "CSV.JSON" = "csv.json" /\ export_type "HTML" = "html"
  /\ export_type "md" = "md" /\ export_type "unknownformat" = "csv".
Proof. repeat split; reflexivity. Qed.

Section ExportRoom.
Context `{Platform} (self : Client).

(** C5.  For every string [type], [exportRoom] issues one GET on
    [/_/{room}/{export_type type}]: the lower-cased type when that is one of
    [csv.json], [xlsx], [md], [html], and [csv] otherwise.  An unrecognized
    type is no error: the call ends as the GET does. *)
Theorem exportRoom_target (room type : string) :
  let req := get_request ("/_/" ++ room ++ "/" ++ export_type type) in
  Chained.exportRoom self (VStr room) (VStr type)
  = (Resolves (normalized (network (instance self) req)), [req])
  /\ Async.exportRoom self (VStr room) (VStr type)
     = (Resolves (normalized (network (instance self) req)), [req]).
Proof.
  intros req. subst req.
  unfold Chained.exportRoom, Async.exportRoom, Async.XLSX, Async.CSV,
    Async.on_error, get_request, export_type.
  run_method.
  destruct (String.eqb (lowercase type) "csv.json");
    destruct (String.eqb (lowercase type) "xlsx");
    destruct (String.eqb (lowercase type) "md");
    destruct (String.eqb (lowercase type) "html"); simpl;
    destruct (network _ _) as [status statusText body | code message]; simpl;
    try destruct (is_2xx status); split; reflexivity.
Qed.

(** C10, as the code has it.  [exportRoom] calls [toLowerCase] on [type]
    before anything else and outside any [try]: whenever that call fails,
    nothing is requested and the error is thrown at the caller ([index.js])
    or the promise is rejected with it (async implementation).  It fails
    with a TypeError on [undefined], [null], every boolean, number and
    array, and every object that has no [toLowerCase] function; a string
    type, with a string room, is fulfilled.  An object that brings a
    [toLowerCase] of its own, such as a String object, is not refused. *)
Theorem exportRoom_needs_toLowerCase :
  (forall (room type e : value),
      toLowerCase type = Throw e ->
      Chained.exportRoom self room type = (Throws e, [])
      /\ Async.exportRoom self room type = (Rejects e, []))
  /\ (forall type : value,
      has_no_toLowerCase type = true ->
      exists message, toLowerCase type = Throw (TypeError message))
  /\ (forall room type : string,
      (exists v, result_of (Chained.exportRoom self (VStr room) (VStr type)) = Resolves v)
      /\ (exists v, result_of (Async.exportRoom self (VStr room) (VStr type)) = Resolves v)).
Proof.
  split; [| split].
  - intros room type e Hcall.
    unfold Chained.exportRoom, Async.exportRoom. run_method.
    rewrite Hcall. split; reflexivity.
  - intros type Htype.
    destruct type; simpl in Htype |- *; try discriminate Htype;
      try (eexists; reflexivity);
      destruct (try_method _ _); try discriminate Htype; eexists; reflexivity.
  - intros room type.
    unfold Chained.exportRoom, Async.exportRoom, Async.XLSX, Async.CSV,
      Async.on_error, result_of.
    run_method.
    destruct (String.eqb (lowercase type) "csv.json");
      destruct (String.eqb (lowercase type) "xlsx");
      destruct (String.eqb (lowercase type) "md");
      destruct (String.eqb (lowercase type) "html"); simpl;
      destruct (network _ _) as [status statusText body | code message]; simpl;
      try destruct (is_2xx status); split; eexists; reflexivity.
Qed.

End ExportRoom.

(** ** createRoom *)

Section CreateRoom.
Context `{Platform} (self : Client).

(** C6, as the code has it.  With a truthy room identifier [createRoom] posts
    the form [{room, snapshot}] to [/_/{room}]; with a falsy one (absent or
    [null] in particular) it posts a form with the single key [snapshot] to
    [/_].  In that second branch the async implementation replaces a falsy
    snapshot by the placeholder ['...'], while [index.js] encodes the
    snapshot as it was given. *)
Theorem createRoom_requests (room snapshot : value) :
  (forall path : string,
      truthy room = true ->
      ToString room = Ok path ->
      requests (Chained.createRoom self room snapshot)
      = [create_request ("/_/" ++ path) (VObj [("room", room); ("snapshot", snapshot)])]
      /\ requests (Async.createRoom self room snapshot)
         = [create_request ("/_/" ++ path) (VObj [("room", room); ("snapshot", snapshot)])])
  /\ (truthy room = false ->
      requests (Chained.createRoom self room snapshot)
      = [create_request "/_" (VObj [("snapshot", snapshot)])]
      /\ requests (Async.createRoom self room snapshot)
         = [create_request "/_"
              (VObj [("snapshot", if truthy snapshot then snapshot else VStr "...")])]).
Proof.
  split.
  - intros path Htruthy Hroom.
    unfold requests, Chained.createRoom, Async.createRoom, Async.on_error, create_request.
    rewrite Htruthy. run_method. rewrite Hroom. simpl.
    destruct (network _ _) as [status statusText body | code message]; simpl;
      try destruct (is_2xx status); split; reflexivity.
  - intros Hfalsy.
    unfold requests, Chained.createRoom, Async.createRoom, Async.on_error, create_request,
      or_else, Async.DEFAULT_SNAPSHOT.
    rewrite Hfalsy. run_method.
    split.
    + destruct (network _ _) as [status statusText body | code message]; simpl;
        try destruct (is_2xx status); reflexivity.
    + destruct (network _ _) as [status statusText body | code message]; simpl;
        try destruct (is_2xx status); reflexivity.
Qed.

End CreateRoom.

(** ** postCommand *)

(** *** The encoder on commands and the reading back *)

Lemma encode_char_no_separator (c : ascii) : no_separator (encode_char c) = true.
Proof. destruct c as [[] [] [] [] [] [] [] []]; reflexivity. Qed.

Lemma percent_decode_encode_char (c : ascii) (rest : string) :
  percent_decode (encode_char c ++ rest) = String c (percent_decode rest).
Proof. destruct c as [[] [] [] [] [] [] [] []]; reflexivity. Qed.

Lemma append_associative (a b c : string) : (a ++ b) ++ c = a ++ (b ++ c).
Proof.
  induction a as [| x a IH]; simpl; [reflexivity |].
  rewrite IH. reflexivity.
Qed.

Lemma no_separator_append (a b : string) :
  no_separator (a ++ b) = no_separator a && no_separator b.
Proof.
  induction a as [| x a IH]; simpl; [reflexivity |].
  rewrite IH. rewrite !andb_assoc. reflexivity.
Qed.

Lemma qs_encode_no_separator (s : string) : no_separator (qs_encode s) = true.
Proof.
  induction s as [| c s IH]; simpl; [reflexivity |].
  rewrite no_separator_append, encode_char_no_separator, IH. reflexivity.
Qed.

(** Percent-encoding loses nothing. *)
Lemma percent_decode_qs_encode (s : string) : percent_decode (qs_encode s) = s.
Proof.
  induction s as [| c s IH]; simpl; [reflexivity |].
  rewrite percent_decode_encode_char, IH. reflexivity.
Qed.

Lemma raw_values_after_key (key rest : string) :
  no_separator key = true ->
  raw_values false (key ++ String "=" rest) = raw_values true rest.
Proof.
  induction key as [| c key IH]; simpl; intros Hkey; [reflexivity |].
  apply andb_prop in Hkey. destruct Hkey as [Hc Hkey].
  apply andb_prop in Hc. destruct Hc as [_ Hc].
  apply negb_true_iff in Hc. rewrite Hc. apply IH. exact Hkey.
Qed.

Lemma raw_values_last (v : string) :
  no_separator v = true -> raw_values true v = [v].
Proof.
  induction v as [| c v IH]; simpl; intros Hv; [reflexivity |].
  apply andb_prop in Hv. destruct Hv as [Hc Hv].
  apply andb_prop in Hc. destruct Hc as [Hc _].
  apply negb_true_iff in Hc. rewrite Hc, (IH Hv). reflexivity.
Qed.

Lemma raw_values_before_next (v rest : string) :
  no_separator v = true ->
  raw_values true (v ++ String "&" rest) = v :: raw_values false rest.
Proof.
  induction v as [| c v IH]; simpl; intros Hv; [reflexivity |].
  apply andb_prop in Hv. destruct Hv as [Hc Hv].
  apply andb_prop in Hc. destruct Hc as [Hc _].
  apply negb_true_iff in Hc. rewrite Hc, (IH Hv). reflexivity.
Qed.

(** The values read back from the pairs of a list are that list. *)
Lemma form_values_qs_pairs (key : string) (items : list string) (start : Z) :
  form_values (String.concat "&" (qs_pairs key start items)) = items.
Proof.
  unfold form_values. revert start.
  induction items as [| item rest IH]; intros start; [reflexivity |].
  destruct rest as [| next rest'].
  - change (String.concat "&" (qs_pairs key start [item]))
      with (qs_encode (key ++ "[" ++ decimal start ++ "]")
            ++ String "=" (qs_encode item)).
    rewrite raw_values_after_key by apply qs_encode_no_separator.
    rewrite raw_values_last by apply qs_encode_no_separator.
    simpl. rewrite percent_decode_qs_encode. reflexivity.
  - change (String.concat "&" (qs_pairs key start (item :: next :: rest')))
      with ((qs_encode (key ++ "[" ++ decimal start ++ "]")
             ++ String "=" (qs_encode item))
            ++ String "&" (String.concat "&" (qs_pairs key (start + 1) (next :: rest')))).
    rewrite append_associative.
    change (String "=" (qs_encode item)
            ++ String "&" (String.concat "&" (qs_pairs key (start + 1) (next :: rest'))))
      with (String "=" (qs_encode item
            ++ String "&" (String.concat "&" (qs_pairs key (start + 1) (next :: rest'))))).
    rewrite raw_values_after_key by apply qs_encode_no_separator.
    rewrite raw_values_before_next by apply qs_encode_no_separator.
    simpl map. rewrite percent_decode_qs_encode. f_equal. apply IH.
Qed.

Lemma qs_pairs_nth (key : string) (items : list string) (start : Z) (i : nat) :
  nth_error (qs_pairs key start items) i
  = option_map (qs_pair key (start + Z.of_nat i)) (nth_error items i).
Proof.
  revert start i.
  induction items as [| item rest IH]; intros start i.
  - destruct i; reflexivity.
  - destruct i as [| i]; simpl.
    + rewrite Z.add_0_r. reflexivity.
    + rewrite IH.
      replace (start + 1 + Z.of_nat i) with (start + Z.pos (Pos.of_succ_nat i)) by lia.
      reflexivity.
Qed.

Lemma qs_encode_append (a b : string) :
  qs_encode (a ++ b) = qs_encode a ++ qs_encode b.
Proof.
  induction a as [| x a IH]; simpl; [reflexivity |].
  rewrite IH, append_associative. reflexivity.
Qed.

(** Decimal digits and the minus sign stay as they are. *)
Lemma qs_encode_digits (d : Decimal.uint) :
  qs_encode (NilEmpty.string_of_uint d) = NilEmpty.string_of_uint d.
Proof. induction d; simpl; try rewrite IHd; reflexivity. Qed.

Lemma qs_encode_decimal (n : Z) : qs_encode (decimal n) = decimal n.
Proof.
  unfold decimal, NilZero.string_of_int, NilZero.string_of_uint.
  destruct (Z.to_int n) as [d | d]; destruct d; simpl;
    try rewrite qs_encode_digits; reflexivity.
Qed.

Lemma encoded_index (i : Z) :
  qs_encode ("command" ++ "[" ++ decimal i ++ "]") = "command%5B" ++ decimal i ++ "%5D".
Proof.
  rewrite !qs_encode_append, qs_encode_decimal. reflexivity.
Qed.

(** The test double does with a list of strings what [qs] does. *)
Lemma indexed_pairs_of_strings (key : string) (items : list string) (start : Z) :
  indexed_pairs key start (map VStr items) = qs_pairs key start items.
Proof.
  revert start. induction items as [| item rest IH]; intros start; [reflexivity |].
  simpl. rewrite IH. reflexivity.
Qed.

Lemma stub_encodes_commands_like_qs (x : exchange) : @encodes_commands_like_qs (stub x).
Proof.
  intros commands. simpl. unfold stub_stringify. simpl.
  rewrite app_nil_r, indexed_pairs_of_strings. reflexivity.
Qed.

Section PostCommand.
Context `{Platform} (self : Client).

(** C9.  [postCommand] hands the form encoder the object [{command}] whose
    value is the given sequence itself.  With the encoder doing what [qs]
    does, the body of the one POST is the pairs of the commands joined by
    [&], the i-th pair being [command%5Bi%5D=] followed by the i-th command,
    percent-encoded; and the values read back from the body are the
    commands, in the order in which they were given. *)
Theorem postCommand_keeps_order (room : string) (commands : list string) :
  let command := VArr (map VStr commands) in
  let req (encoded : string) :=
    {| method := POST; url := "/_/" ++ room; data := Text encoded; config := no_config |} in
  (requests (Chained.postCommand self (VStr room) command)
   = [req (qs_stringify (VObj [("command", command)]))]
   /\ requests (Async.postCommand self (VStr room) command)
      = [req (qs_stringify (VObj [("command", command)]))])
  /\ (encodes_commands_like_qs ->
      let pairs := qs_pairs "command" 0 commands in
      let body := String.concat "&" pairs in
      requests (Chained.postCommand self (VStr room) command) = [req body]
      /\ requests (Async.postCommand self (VStr room) command) = [req body]
      /\ (forall i : nat,
            nth_error pairs i
            = option_map
                (fun c => "command%5B" ++ decimal (Z.of_nat i) ++ "%5D=" ++ qs_encode c)
                (nth_error commands i))
      /\ form_values body = commands).
Proof.
  intros command req.
  assert (Hsent :
    requests (Chained.postCommand self (VStr room) command)
    = [req (qs_stringify (VObj [("command", command)]))]
    /\ requests (Async.postCommand self (VStr room) command)
       = [req (qs_stringify (VObj [("command", command)]))]).
  { subst command req.
    unfold requests, Chained.postCommand, Async.postCommand, Async.on_error.
    run_method.
    destruct (network _ _) as [status statusText body | code message]; simpl;
      try destruct (is_2xx status); split; reflexivity. }
  split; [exact Hsent |].
  intros Hqs pairs body.
  destruct Hsent as [Hchained Hasync].
  subst command. rewrite (Hqs commands) in Hchained, Hasync.
  split; [exact Hchained | split; [exact Hasync | split]].
  - intros i. subst pairs. rewrite qs_pairs_nth.
    destruct (nth_error commands i) as [c |]; [| reflexivity].
    unfold option_map, qs_pair. rewrite encoded_index, !append_associative.
    reflexivity.
  - apply form_values_qs_pairs.
Qed.

End PostCommand.

(** ** The fixed-format wrappers *)

Section Wrappers.
Context `{Platform} (self : Client).

(** X16.  [getHTML], [getCSV] and [getJSON] do what [exportRoom] does with
    the type pinned: the same request and the same outcome. *)
Lemma wrappers_are_exports (room : string) :
  Chained.getHTML self (VStr room) = Chained.exportRoom self (VStr room) (VStr "html")
  /\ Async.getHTML self (VStr room) = Async.exportRoom self (VStr room) (VStr "html")
  /\ Async.getCSV self (VStr room) = Async.exportRoom self (VStr room) (VStr "csv")
  /\ Async.getJSON self (VStr room) = Async.exportRoom self (VStr room) (VStr "csv.json").
Proof.
  unfold Chained.getHTML, Chained.exportRoom, Async.getHTML, Async.getCSV,
    Async.getJSON, Async.exportRoom, Async.on_error.
  run_method. repeat split; reflexivity.
Qed.

End Wrappers.

(** * Concrete runs *)

(** [postCommand(room, ['cmd1', 'cmd2'])] under the test double. *)
Example postCommand_two_commands :
  requests (@Async.postCommand (stub (ok_with VNull)) local_client (VStr "sheet1")
              (VArr [VStr "cmd1"; VStr "cmd2"]))
  = [{| method := POST; url := "/_/sheet1";
        data := Text "command%5B0%5D=cmd1&command%5B1%5D=cmd2"; config := no_config |}].
Proof. reflexivity. Qed.

(** A room identifier that cannot be turned into a string: [index.js]
    throws at the caller, the async implementation catches the TypeError
    and is fulfilled with it; neither sends a request. *)
Example getRoom_unprintable_room :
  let room := VObj [("toString", VNum 1)] in
  @Chained.getRoom (stub (ok_with VNull)) local_client room = (Throws cannot_convert, [])
  /\ @Async.getRoom (stub (ok_with VNull)) local_client room = (Resolves cannot_convert, []).
Proof. split; reflexivity. Qed.

(** A 404 on [getRoom] comes back as [{status: 404, message: 'Not Found'}]. *)
Lemma http_error_normalized_run :
  let c := in_async (Async.op_getRoom (VStr "sheet1")) in
  let req := get_request "/_/sheet1" in
  (requests (@run (stub not_found) local_client c) = [req]
   /\ @network (stub not_found) (instance local_client) req = Answered 404 "Not Found" VNull
   /\ is_2xx 404 = false)
  /\ result_of (@run (stub not_found) local_client c)
     = Resolves (status_info 404 "Not Found").
Proof.
  split.
  - repeat split; reflexivity.
  - apply (@http_error_normalized (stub not_found) local_client
             (in_async (Async.op_getRoom (VStr "sheet1")))
             (get_request "/_/sheet1") 404 "Not Found" VNull);
      reflexivity.
Defined.

(** C1 as stated fails: [roomExists] answers a 404 with [false], not with
    the descriptor. *)
Lemma roomExists_hides_http_error :
  ~ (forall (P : Platform) (self : Client) (c : call) (req : Request)
            (status : Z) (statusText : string) (body : value),
        requests (run self c) = [req] ->
        network (instance self) req = Answered status statusText body ->
        is_2xx status = false ->
        result_of (run self c) = Resolves (status_info status statusText)).
Proof.
  intros claim.
  specialize (claim (stub not_found) local_client
                (in_async (Async.op_roomExists (VStr "sheet1")))
                (get_request "/_exists/sheet1") 404 "Not Found" VNull
                eq_refl eq_refl eq_refl).
  discriminate claim.
Qed.

(** A refused connection on [listRooms] comes back as the failure itself. *)
Lemma transport_failure_passes_through_run :
  let c := in_index_js Chained.op_listRooms in
  let req := get_request "/_rooms" in
  let failure := transport_failure "ECONNREFUSED" "connect ECONNREFUSED 127.0.0.1:8000" in
  (is_roomExists c = false
   /\ requests (@run (stub connection_refused) local_client c) = [req]
   /\ @network (stub connection_refused) (instance local_client) req = connection_refused)
  /\ settle (@network (stub connection_refused) (instance local_client) req) = Throw failure
  /\ result_of (@run (stub connection_refused) local_client c) = Resolves failure.
Proof.
  split.
  - repeat split; reflexivity.
  - apply (@transport_failure_passes_through (stub connection_refused) local_client
             (in_index_js Chained.op_listRooms) (get_request "/_rooms")
             "ECONNREFUSED" "connect ECONNREFUSED 127.0.0.1:8000");
      reflexivity.
Defined.

(** The request of [createRoom('sheet1', 'snap')] carries the 10000 ms timeout. *)
Lemma only_createRoom_extends_timeout_run :
  let c := in_async (Async.op_createRoom (VStr "sheet1") (VStr "snap")) in
  let req := @create_request (stub (ok_with VNull)) "/_/sheet1"
               (VObj [("room", VStr "sheet1"); ("snapshot", VStr "snap")]) in
  In req (requests (@run (stub (ok_with VNull)) local_client c))
  /\ timeout (config req) = Some 10000
  /\ effective_timeout (instance local_client) req = VNum 10000.
Proof.
  split.
  - left. reflexivity.
  - apply (@only_createRoom_extends_timeout (stub (ok_with VNull)) local_client
             (in_async (Async.op_createRoom (VStr "sheet1") (VStr "snap")))).
    left. reflexivity.
Defined.

(** C7 as stated fails: [createRoomFromCSVFile] creates a room, yet its
    request runs under the instance timeout of 2500 ms. *)
Lemma createRoomFromCSVFile_keeps_default_timeout :
  ~ (forall (P : Platform) (self : Client) (c : call) (req : Request),
        creation_style c = true ->
        In req (requests (run self c)) ->
        effective_timeout (instance self) req = VNum 10000).
Proof.
  intros claim.
  specialize (claim (stub (ok_with VNull)) local_client
                (in_async (Async.op_createRoomFromCSVFile (VStr "rooms.csv")))
                _ eq_refl (or_introl eq_refl)).
  discriminate claim.
Qed.

(** [overwrite] with the type [XLSX] (wrong case) and with [csv]. *)
Lemma overwrite_checks_format_run :
  let P := stub (ok_with VNull) in
  let room := VStr "sheet1" in
  let snapshot := VStr "a,b" in
  ("XLSX" <> "socialcalc" /\ "XLSX" <> "xlsx" /\ "XLSX" <> "csv"
   /\ In ("csv", "text/csv") documented_content_types
   /\ ToString room = Ok "sheet1"
   /\ @Buffer_from P snapshot = Ok (list_byte_of_string "a,b"))
  /\ (@Chained.overwrite P local_client room snapshot (VStr "XLSX") = (Returns format_error, [])
      /\ @Async.overwrite P local_client room snapshot (VStr "XLSX") = (Resolves format_error, []))
  /\ (requests (@Chained.overwrite P local_client room snapshot (VStr "csv"))
      = [put_request "/_/sheet1" (list_byte_of_string "a,b") "text/csv"]
      /\ requests (@Async.overwrite P local_client room snapshot (VStr "csv"))
         = [put_request "/_/sheet1" (list_byte_of_string "a,b") "text/csv"]).
Proof.
  intros P room snapshot.
  assert (Hcsv : In ("csv", "text/csv") documented_content_types)
    by (right; right; left; reflexivity).
  split; [| split].
  - repeat split; try discriminate; try reflexivity. exact Hcsv.
  - apply (proj1 (@overwrite_checks_format P local_client room snapshot) "XLSX");
      discriminate.
  - apply (proj2 (@overwrite_checks_format P local_client room snapshot)
             "csv" "text/csv" "sheet1" (list_byte_of_string "a,b"));
      [exact Hcsv | reflexivity | reflexivity].
Defined.

(** C2 as stated fails for the async implementation: the Error is not what
    the call returns but what the returned promise is fulfilled with. *)
Lemma async_overwrite_error_is_promised :
  ~ (forall (P : Platform) (self : Client) (room snapshot : value) (type : string),
        type <> "socialcalc" -> type <> "xlsx" -> type <> "csv" ->
        result_of (Async.overwrite self room snapshot (VStr type)) = Returns format_error).
Proof.
  intros claim.
  assert (Hrun : result_of (@Async.overwrite (stub (ok_with VNull)) local_client
                              (VStr "sheet1") (VStr "a,b") (VStr "XLSX"))
                 = Returns format_error).
  { apply claim; discriminate. }
  discriminate Hrun.
Qed.

(** [exportRoom] with [null] for the type, and with [HTML]. *)
Lemma exportRoom_needs_toLowerCase_run :
  let P := stub (ok_with (VStr "<table></table>")) in
  let e := TypeError "Cannot read properties of null (reading 'toLowerCase')" in
  (@toLowerCase (@engine P) VNull = Throw e
   /\ @has_no_toLowerCase (@engine P) VNull = true)
  /\ (@Chained.exportRoom P local_client (VStr "sheet1") VNull = (Throws e, [])
      /\ @Async.exportRoom P local_client (VStr "sheet1") VNull = (Rejects e, []))
  /\ (exists message, @toLowerCase (@engine P) VNull = Throw (TypeError message))
  /\ ((exists v, result_of (@Chained.exportRoom P local_client (VStr "sheet1") (VStr "HTML"))
                 = Resolves v)
      /\ (exists v, result_of (@Async.exportRoom P local_client (VStr "sheet1") (VStr "HTML"))
                    = Resolves v)).
Proof.
  intros P e. split; [split; reflexivity | split; [| split]].
  - apply (proj1 (@exportRoom_needs_toLowerCase P local_client) (VStr "sheet1") VNull e).
    reflexivity.
  - apply (proj1 (proj2 (@exportRoom_needs_toLowerCase P local_client)) VNull).
    reflexivity.
  - apply (proj2 (proj2 (@exportRoom_needs_toLowerCase P local_client)) "sheet1" "HTML").
Defined.

(** C10 as stated fails: a type that is no string but brings a
    [toLowerCase] of its own, here the String object [new String('HTML')],
    is not refused; the call is fulfilled as any export is. *)
Lemma String_object_type_is_accepted :
  ~ (forall (P : Platform) (self : Client) (room type : value),
        is_string type = false ->
        (exists message,
            Chained.exportRoom self room type = (Throws (TypeError message), []))
        /\ (exists message,
            Async.exportRoom self room type = (Rejects (TypeError message), []))).
Proof.
  intros claim.
  destruct (claim (stub (ok_with (VStr "<table></table>"))) local_client
              (VStr "sheet1") (VHost 0) eq_refl) as [[message Hthrows] _].
  discriminate Hthrows.
Qed.

(** What that call does: one GET on the [html] export. *)
Example exportRoom_String_object :
  @Async.exportRoom (stub (ok_with (VStr "<table></table>"))) local_client
    (VStr "sheet1") (VHost 0)
  = (Resolves (VStr "<table></table>"), [get_request "/_/sheet1/html"]).
Proof. reflexivity. Qed.

(** [createRoom('r1', snapshot)], [createRoom(null, snapshot)] and
    [createRoom(null)]. *)
Lemma createRoom_requests_run :
  let P := stub (ok_with (VStr "/r1")) in
  let snapshot := VStr "snap" in
  (truthy (VStr "r1") = true /\ ToString (VStr "r1") = Ok "r1" /\ truthy VNull = false)
  /\ (requests (@Chained.createRoom P local_client (VStr "r1") snapshot)
      = [@create_request P "/_/r1" (VObj [("room", VStr "r1"); ("snapshot", snapshot)])]
      /\ requests (@Async.createRoom P local_client (VStr "r1") snapshot)
         = [@create_request P "/_/r1" (VObj [("room", VStr "r1"); ("snapshot", snapshot)])])
  /\ (requests (@Chained.createRoom P local_client VNull snapshot)
      = [@create_request P "/_" (VObj [("snapshot", snapshot)])]
      /\ requests (@Async.createRoom P local_client VNull snapshot)
         = [@create_request P "/_" (VObj [("snapshot", snapshot)])])
  /\ (requests (@Chained.createRoom P local_client VNull VUndefined)
      = [@create_request P "/_" (VObj [("snapshot", VUndefined)])]
      /\ requests (@Async.createRoom P local_client VNull VUndefined)
         = [@create_request P "/_" (VObj [("snapshot", VStr "...")])]).
Proof.
  intros P snapshot. split; [| split; [| split]].
  - repeat split; reflexivity.
  - apply (proj1 (@createRoom_requests P local_client (VStr "r1") snapshot) "r1");
      reflexivity.
  - apply (proj2 (@createRoom_requests P local_client VNull snapshot)).
    reflexivity.
  - apply (proj2 (@createRoom_requests P local_client VNull VUndefined)).
    reflexivity.
Defined.

(** C6 as stated fails for [index.js]: called without a room and without a
    snapshot it encodes the absent snapshot, not the placeholder. *)
Lemma index_js_createRoom_has_no_default_snapshot :
  ~ (forall (P : Platform) (self : Client) (room : value),
        is_absent room = true ->
        requests (Chained.createRoom self room VUndefined)
        = [create_request "/_" (VObj [("snapshot", VStr "...")])]).
Proof.
  intros claim.
  specialize (claim (stub (ok_with (VStr "/r1"))) local_client VNull eq_refl).
  discriminate claim.
Qed.

(** * Further properties of the methods *)

(** ** Conversions and the catch block *)


Section Conversions.
Context `{Engine}.
Hypothesis functions_throw_objects :
  forall f this e, function_call f this = Throw e -> is_absent e = false.
Hypothesis conversions_throw_objects :
  forall id e, object_ToString id = Throw e -> is_absent e = false.




End Conversions.



(** ** Construction *)

(** X1.  Called with a host and a port only, the async constructor builds
    the client that the [index.js] constructor builds: the protocol defaults
    to [http], the timeout to 2500, and the numeric default port prints as
    the string default of [index.js]. *)
Theorem constructors_agree `{Engine} (host port : value) :
  Async.Ethercalc host port VUndefined VUndefined = Chained.Ethercalc host port.
Proof.
  unfold Async.Ethercalc, Chained.Ethercalc.
  destruct port; reflexivity.
Qed.

(** ** Single methods *)

Section SingleMethods.
Context `{Platform} (self : Client).

(** X9.  [overwrite] checks the type before it touches the room or the
    snapshot: with a type that is not a string at all (a missing third
    argument included) the caller gets the format Error and nothing is
    sent, whatever the room and the snapshot are. *)
Theorem overwrite_rejects_non_string_type (room snapshot type : value) :
  is_string type = false ->
  Chained.overwrite self room snapshot type = (Returns format_error, [])
  /\ Async.overwrite self room snapshot type = (Resolves format_error, []).
Proof.
  intros Htype.
  unfold Chained.overwrite, Async.overwrite.
  destruct type; try discriminate Htype; split; reflexivity.
Qed.

(** X8.  Room identifiers go into the path as they are, so the read methods
    are [getRoom] on a longer identifier: [getCells(room)] is
    [getRoom(room + '/cells')], [getCellValue(room, coord)] is
    [getRoom(room + '/cells/' + coord)], and [exportRoom(room, type)] is
    [getRoom(room + '/' + t)] for the normalized type [t]. *)
Theorem reads_are_getRoom_on_longer_path (room coord type : string) :
  (Chained.getCells self (VStr room) = Chained.getRoom self (VStr (room ++ "/cells"))
   /\ Chained.getCellValue self (VStr room) (VStr coord)
      = Chained.getRoom self (VStr (room ++ "/cells/" ++ coord))
   /\ Chained.exportRoom self (VStr room) (VStr type)
      = Chained.getRoom self (VStr (room ++ "/" ++ export_type type)))
  /\ (Async.getCells self (VStr room) = Async.getRoom self (VStr (room ++ "/cells"))
      /\ Async.getCellValue self (VStr room) (VStr coord)
         = Async.getRoom self (VStr (room ++ "/cells/" ++ coord))
      /\ Async.exportRoom self (VStr room) (VStr type)
         = Async.getRoom self (VStr (room ++ "/" ++ export_type type))).
Proof.
  unfold Chained.getCells, Chained.getCellValue, Chained.exportRoom, Chained.getRoom,
    Async.getCells, Async.getCellValue, Async.exportRoom, Async.getRoom,
    Async.XLSX, Async.CSV, export_type.
  run_method.
  destruct (String.eqb (lowercase type) "csv.json");
    destruct (String.eqb (lowercase type) "xlsx");
    destruct (String.eqb (lowercase type) "md");
    destruct (String.eqb (lowercase type) "html"); simpl;
    repeat split; reflexivity.
Qed.

(** X12.  [exportRoom] does not see the case of its type: two types with
    the same lower-case form give the same call. *)
Theorem exportRoom_ignores_case (room : value) (type1 type2 : string) :
  lowercase type1 = lowercase type2 ->
  Chained.exportRoom self room (VStr type1) = Chained.exportRoom self room (VStr type2)
  /\ Async.exportRoom self room (VStr type1) = Async.exportRoom self room (VStr type2).
Proof.
  intros Hcase.
  unfold Chained.exportRoom, Async.exportRoom. simpl toLowerCase.
  rewrite Hcase. split; reflexivity.
Qed.

(** X13.  Both upload methods hand the transport the stream that
    [fs.createReadStream] opened, under [text/csv] and without a timeout of
    their own; [appendRowsFromCSVFile] on the empty room identifier is the
    very call [createRoomFromCSVFile] makes. *)
Theorem uploads_stream_csv (room : string) (path : value) (stream : ReadStream) :
  fs_createReadStream path = Ok stream ->
  (requests (Chained.createRoomFromCSVFile self path) = [upload_request "/_/" stream]
   /\ requests (Async.createRoomFromCSVFile self path) = [upload_request "/_/" stream])
  /\ (requests (Chained.appendRowsFromCSVFile self (VStr room) path)
      = [upload_request ("/_/" ++ room) stream]
      /\ requests (Async.appendRowsFromCSVFile self (VStr room) path)
         = [upload_request ("/_/" ++ room) stream])
  /\ (Chained.appendRowsFromCSVFile self (VStr EmptyString) path
      = Chained.createRoomFromCSVFile self path
      /\ Async.appendRowsFromCSVFile self (VStr EmptyString) path
         = Async.createRoomFromCSVFile self path).
Proof.
  intros Hstream.
  unfold requests, Chained.createRoomFromCSVFile, Chained.appendRowsFromCSVFile,
    Async.createRoomFromCSVFile, Async.appendRowsFromCSVFile, Async.on_error,
    upload_request.
  run_method. rewrite Hstream. simpl.
  destruct (network _ _) as [status statusText body | code message]; simpl;
    try destruct (is_2xx status); simpl;
    destruct (network _ _) as [status' statusText' body' | code' message']; simpl;
    try destruct (is_2xx status'); repeat split; reflexivity.
Qed.

(** X11.  The async [roomExists] is fulfilled for every argument: a room
    identifier that cannot be turned into a string is answered with [false]
    and nothing is sent, where [index.js] throws at the caller. *)
Theorem async_roomExists_never_fails (room : value) :
  (exists v, result_of (Async.roomExists self room) = Resolves v)
  /\ (forall e, ToString room = Throw e ->
        Async.roomExists self room = (Resolves (VBool false), [])
        /\ Chained.roomExists self room = (Throws e, [])).
Proof.
  unfold Async.roomExists, Chained.roomExists, result_of. run_method. split.
  - destruct (ToString room) as [path | e]; simpl.
    + destruct (network _ _) as [status statusText body | code message]; simpl;
        try destruct (is_2xx status); eexists; reflexivity.
    + eexists; reflexivity.
  - intros e He. rewrite He. split; reflexivity.
Qed.

End SingleMethods.

(** ** Every method, again *)

#[local] Ltac unfold_methods :=
  unfold Chained.getRoom, Chained.createRoom, Chained.overwrite,
    Chained.createRoomFromCSVFile, Chained.deleteRoom, Chained.roomExists,
    Chained.exportRoom, Chained.listRooms, Chained.postCommand,
    Chained.appendRowsFromCSVFile, Chained.getCells, Chained.getCellValue,
    Chained.getHTML,
    Async.getRoom, Async.createRoom, Async.overwrite,
    Async.createRoomFromCSVFile, Async.deleteRoom, Async.roomExists,
    Async.exportRoom, Async.listRooms, Async.postCommand,
    Async.appendRowsFromCSVFile, Async.getCells, Async.getCellValue,
    Async.getHTML, Async.getCSV, Async.getJSON, Async.on_error, or_else,
    Async.SOCIALCALC, Async.XLSX, Async.CSV, Async.DEFAULT_SNAPSHOT;
  run_method.

#[local] Ltac split_on_inputs :=
  repeat match goal with
  | |- context [ToString ?v] => destruct (ToString v) eqn:?; simpl
  | |- context [toLowerCase ?v] => destruct (toLowerCase v) eqn:?; simpl
  | |- context [Buffer_from ?v] => destruct (Buffer_from v) eqn:?; simpl
  | |- context [fs_createReadStream ?v] => destruct (fs_createReadStream v) eqn:?; simpl
  | |- context [truthy ?v] => destruct (truthy v) eqn:?; simpl
  | |- context [strict_eq_str ?v ?s] => destruct (strict_eq_str v s) eqn:?; simpl
  end.

#[local] Ltac split_on_network :=
  repeat match goal with
  | |- context [network ?i ?r] =>
      destruct (network i r) as [? ? ? | ? ?]; simpl
  | |- context [is_2xx ?status] => destruct (is_2xx status); simpl
  end.

Section EveryMethodAgain.
Context `{Platform} (self : Client).

(** X2.  No method retries or fans out: every call, of either
    implementation and on any arguments, hands the transport at most one
    request. *)
Theorem single_shot (c : call) : (length (requests (run self c)) <= 1)%nat.
Proof.
  unfold requests.
  destruct c as [o | o]; destruct o; simpl; unfold_methods;
    split_on_arguments; split_on_network; simpl; lia.
Qed.

(** X3.  For every method other than [roomExists] and [deleteRoom], a call
    that sent a request is fulfilled with the normalized exchange: the
    decoded body, unmodified, on a 2xx answer, the descriptor on any other
    answer, the transport failure when there was none. *)
Theorem sent_request_is_normalized (c : call) (req : Request) :
  is_roomExists c = false ->
  is_deleteRoom c = false ->
  requests (run self c) = [req] ->
  result_of (run self c) = Resolves (normalized (network (instance self) req)).
Proof.
  unfold requests, result_of.
  destruct c as [o | o]; destruct o; simpl; try discriminate; intros _ _;
    unfold_methods; split_on_arguments; settle_request.
Qed.

(** X4.  Once a request has been handed to the transport the call is
    fulfilled: no method of either implementation throws or rejects after
    sending. *)
Theorem sent_request_is_fulfilled (c : call) (req : Request) :
  requests (run self c) = [req] ->
  exists v, result_of (run self c) = Resolves v.
Proof.
  unfold requests, result_of.
  destruct c as [o | o]; destruct o; simpl; unfold_methods;
    split_on_arguments; split_on_network;
    intros Hreq; first [discriminate Hreq | eexists; reflexivity].
Qed.

(** X5.  An [index.js] method never returns a rejected promise.  When it
    throws, it throws while evaluating its arguments and nothing has been
    sent; the only plain value it returns is the format Error of
    [overwrite], again with nothing sent. *)
Theorem index_js_outcomes (o : Chained.operation) :
  match result_of (Chained.invoke self o) with
  | Resolves _ => True
  | Rejects _ => False
  | Throws _ => requests (Chained.invoke self o) = []
  | Returns v => v = format_error /\ requests (Chained.invoke self o) = []
  end.
Proof.
  unfold requests, result_of.
  destruct o; simpl; unfold_methods;
    split_on_arguments; split_on_network; auto.
Qed.

(** X15.  Every request goes to a path under [/_], and a GET or DELETE
    request carries neither a body nor headers. *)
Theorem requests_stay_under_api (c : call) (req : Request) :
  In req (requests (run self c)) ->
  under_api (url req) = true
  /\ (method req = GET \/ method req = DELETE ->
      data req = NoData /\ headers (config req) = []).
Proof.
  unfold requests.
  destruct c as [o | o]; destruct o; simpl; unfold_methods;
    split_on_arguments; split_on_network;
    intros Hin; simpl in Hin;
    repeat match goal with
    | Hin : _ \/ _ |- _ => destruct Hin as [Hin | Hin]
    | Hin : False |- _ => destruct Hin
    end;
    subst req; simpl; (split; [reflexivity |]);
    intros [Hmethod | Hmethod]; first [discriminate Hmethod | split; reflexivity].
Qed.

(** X6.  The rewrite kept the behaviour: whenever an [index.js] call is
    fulfilled, the async method on the same arguments sends the same request
    and is fulfilled with the same value, except for [createRoom] without a
    room and without a snapshot, where the async method substitutes its
    placeholder. *)
Theorem implementations_agree (o : Chained.operation) (v : value) :
  takes_default_snapshot o = false ->
  result_of (Chained.invoke self o) = Resolves v ->
  Async.invoke self (to_async o) = Chained.invoke self o.
Proof.
  unfold result_of.
  destruct o; simpl; unfold_methods;
    split_on_arguments; split_on_network;
    intros Hdefault Hresult;
    first [discriminate Hresult | discriminate Hdefault | reflexivity].
Qed.

(** X7.  What [index.js] throws at the caller the async method delivers
    through its promise: it sends nothing either, and it rejects with the
    same error (when the [toLowerCase] call of [exportRoom] is what threw),
    or answers [false] ([roomExists]), or settles as the shared catch block
    makes of that error. *)
Theorem thrown_becomes_delivered (o : Chained.operation) (e : value) :
  result_of (Chained.invoke self o) = Throws e ->
  requests (Chained.invoke self o) = []
  /\ requests (Async.invoke self (to_async o)) = []
  /\ result_of (Async.invoke self (to_async o))
     = match o with
       | Chained.op_roomExists _ => Resolves (VBool false)
       | Chained.op_exportRoom _ type =>
           match toLowerCase type with
           | Throw _ => Rejects e
           | Ok _ => delivered (describe_error e)
           end
       | _ => delivered (describe_error e)
       end.
Proof.
  unfold result_of, requests.
  destruct o; simpl; unfold_methods;
    split_on_inputs; split_on_network;
    intros Hresult; try discriminate Hresult;
    injection Hresult as <-;
    try (destruct (describe_error _); simpl);
    auto.
Qed.

(** X17.  Whatever string it is given for the type, [exportRoom] only ever
    asks for one of five exports of the room: [csv.json], [xlsx], [md],
    [html] or [csv]. *)
Theorem exportRoom_has_five_targets (room type : string) (req : Request) :
  In req (requests (Chained.exportRoom self (VStr room) (VStr type)))
  \/ In req (requests (Async.exportRoom self (VStr room) (VStr type))) ->
  method req = GET
  /\ exists t, In t ["csv.json"; "xlsx"; "md"; "html"; "csv"]
              /\ url req = "/_/" ++ room ++ "/" ++ t.
Proof.
  unfold requests. unfold_methods.
  destruct (String.eqb (lowercase type) "csv.json") eqn:E1;
    [| destruct (String.eqb (lowercase type) "xlsx") eqn:E2;
       [| destruct (String.eqb (lowercase type) "md") eqn:E3;
          [| destruct (String.eqb (lowercase type) "html") eqn:E4]]];
    simpl; split_on_network;
    intros [Hin | Hin]; simpl in Hin; destruct Hin as [Hin | []]; subst req;
    (split; [reflexivity |]); simpl.
  all: first
    [ apply String.eqb_eq in E1; rewrite E1; exists "csv.json"; simpl; tauto
    | apply String.eqb_eq in E2; rewrite E2; exists "xlsx"; simpl; tauto
    | apply String.eqb_eq in E3; rewrite E3; exists "md"; simpl; tauto
    | apply String.eqb_eq in E4; rewrite E4; exists "html"; simpl; tauto
    | exists "csv"; simpl; tauto ].
Qed.


End EveryMethodAgain.

(** * Concrete runs of the further properties *)

(** [overwrite(room, snapshot)] with the type left out. *)
Lemma overwrite_rejects_non_string_type_run :
  let P := stub (ok_with VNull) in
  is_string VUndefined = false
  /\ @Chained.overwrite P local_client (VStr "sheet1") (VStr "a,b") VUndefined
     = (Returns format_error, [])
  /\ @Async.overwrite P local_client (VStr "sheet1") (VStr "a,b") VUndefined
     = (Resolves format_error, []).
Proof.
  intros P. split; [reflexivity |].
  apply (@overwrite_rejects_non_string_type P local_client
           (VStr "sheet1") (VStr "a,b") VUndefined).
  reflexivity.
Defined.

(** [exportRoom(room, 'HTML')] and [exportRoom(room, 'html')]. *)
Lemma exportRoom_ignores_case_run :
  let P := stub (ok_with (VStr "<table></table>")) in
  lowercase "HTML" = lowercase "html"
  /\ @Chained.exportRoom P local_client (VStr "sheet1") (VStr "HTML")
     = @Chained.exportRoom P local_client (VStr "sheet1") (VStr "html")
  /\ @Async.exportRoom P local_client (VStr "sheet1") (VStr "HTML")
     = @Async.exportRoom P local_client (VStr "sheet1") (VStr "html").
Proof.
  intros P. split; [reflexivity |].
  apply (@exportRoom_ignores_case P local_client (VStr "sheet1") "HTML" "html").
  reflexivity.
Defined.

(** Uploading [rows.csv] to a new room and to [sheet1]. *)
Lemma uploads_stream_csv_run :
  let P := stub (ok_with (VStr "/sheet1")) in
  let path := VStr "rows.csv" in
  let stream := file_stream (VStr "rows.csv") in
  @fs_createReadStream P path = Ok stream
  /\ (requests (@Chained.createRoomFromCSVFile P local_client path)
      = [upload_request "/_/" stream]
      /\ requests (@Async.createRoomFromCSVFile P local_client path)
         = [upload_request "/_/" stream])
  /\ (requests (@Chained.appendRowsFromCSVFile P local_client (VStr "sheet1") path)
      = [upload_request "/_/sheet1" stream]
      /\ requests (@Async.appendRowsFromCSVFile P local_client (VStr "sheet1") path)
         = [upload_request "/_/sheet1" stream])
  /\ (@Chained.appendRowsFromCSVFile P local_client (VStr EmptyString) path
      = @Chained.createRoomFromCSVFile P local_client path
      /\ @Async.appendRowsFromCSVFile P local_client (VStr EmptyString) path
         = @Async.createRoomFromCSVFile P local_client path).
Proof.
  intros P path stream. split; [reflexivity |].
  apply (@uploads_stream_csv P local_client "sheet1" path stream).
  reflexivity.
Defined.

(** [roomExists] on a room identifier that cannot be printed. *)
Lemma async_roomExists_never_fails_run :
  let P := stub (ok_with (VBool true)) in
  let room := VObj [("toString", VNum 1)] in
  ToString room = Throw cannot_convert
  /\ @Async.roomExists P local_client room = (Resolves (VBool false), [])
  /\ @Chained.roomExists P local_client room = (Throws cannot_convert, []).
Proof.
  intros P room. split; [reflexivity |].
  apply (proj2 (@async_roomExists_never_fails P local_client room) cannot_convert).
  reflexivity.
Defined.

(** [getCells('sheet1')] answered with a body comes back with that body. *)
Lemma sent_request_is_normalized_run :
  let cells := VObj [("A1", VStr "1")] in
  let P := stub (ok_with cells) in
  let c := in_async (Async.op_getCells (VStr "sheet1")) in
  let req := get_request "/_/sheet1/cells" in
  (is_roomExists c = false /\ is_deleteRoom c = false
   /\ requests (@run P local_client c) = [req])
  /\ result_of (@run P local_client c) = Resolves cells.
Proof.
  intros cells P c req. split.
  - repeat split; reflexivity.
  - apply (@sent_request_is_normalized P local_client c req); reflexivity.
Defined.

(** [deleteRoom('sheet1')] that was refused still ends fulfilled. *)
Lemma sent_request_is_fulfilled_run :
  let P := stub connection_refused in
  let c := in_index_js (Chained.op_deleteRoom (VStr "sheet1")) in
  requests (@run P local_client c) = [delete_request "/_/sheet1"]
  /\ exists v, result_of (@run P local_client c) = Resolves v.
Proof.
  intros P c. split; [reflexivity |].
  apply (@sent_request_is_fulfilled P local_client c (delete_request "/_/sheet1")).
  reflexivity.
Defined.

(** The request of [getCellValue('sheet1', 'A1')]. *)
Lemma requests_stay_under_api_run :
  let P := stub (ok_with (VStr "1")) in
  let c := in_async (Async.op_getCellValue (VStr "sheet1") (VStr "A1")) in
  let req := get_request "/_/sheet1/cells/A1" in
  In req (requests (@run P local_client c))
  /\ under_api (url req) = true
  /\ (method req = GET \/ method req = DELETE ->
      data req = NoData /\ headers (config req) = []).
Proof.
  intros P c req. split; [left; reflexivity |].
  apply (@requests_stay_under_api P local_client c req).
  left. reflexivity.
Defined.

(** [listRooms()] in both implementations. *)
Lemma implementations_agree_run :
  let rooms := VArr [VStr "sheet1"; VStr "sheet2"] in
  let P := stub (ok_with rooms) in
  (takes_default_snapshot Chained.op_listRooms = false
   /\ result_of (@Chained.invoke P local_client Chained.op_listRooms) = Resolves rooms)
  /\ @Async.invoke P local_client (to_async Chained.op_listRooms)
     = @Chained.invoke P local_client Chained.op_listRooms.
Proof.
  intros rooms P. split.
  - split; reflexivity.
  - apply (@implementations_agree P local_client Chained.op_listRooms rooms);
      reflexivity.
Defined.

(** [getCells] on a room identifier that cannot be printed. *)
Lemma thrown_becomes_delivered_run :
  let P := stub (ok_with VNull) in
  let o := Chained.op_getCells (VObj [("toString", VNum 1)]) in
  result_of (@Chained.invoke P local_client o) = Throws cannot_convert
  /\ requests (@Chained.invoke P local_client o) = []
  /\ requests (@Async.invoke P local_client (to_async o)) = []
  /\ result_of (@Async.invoke P local_client (to_async o)) = Resolves cannot_convert.
Proof.
  intros P o. split; [reflexivity |].
  apply (@thrown_becomes_delivered P local_client o cannot_convert).
  reflexivity.
Defined.

(** [exportRoom('sheet1', 'PDF')] asks for the csv export. *)
Lemma exportRoom_has_five_targets_run :
  let P := stub (ok_with (VStr "a,b")) in
  let req := get_request "/_/sheet1/csv" in
  (In req (requests (@Chained.exportRoom P local_client (VStr "sheet1") (VStr "PDF")))
   \/ In req (requests (@Async.exportRoom P local_client (VStr "sheet1") (VStr "PDF"))))
  /\ method req = GET
  /\ exists t, In t ["csv.json"; "xlsx"; "md"; "html"; "csv"]
               /\ url req = "/_/" ++ "sheet1" ++ "/" ++ t.
Proof.
  intros P req.
  assert (Hin : In req (requests (@Chained.exportRoom P local_client (VStr "sheet1") (VStr "PDF")))
                \/ In req (requests (@Async.exportRoom P local_client (VStr "sheet1") (VStr "PDF"))))
    by (left; left; reflexivity).
  split; [exact Hin |].
  apply (@exportRoom_has_five_targets P local_client "sheet1" "PDF" req Hin).
Defined.


(** Without the proviso of X14: a room identifier whose [toString] throws
    [null] makes the catch block of the async [getRoom] fail on that [null],
    and the promise is rejected; [index.js] throws the [null] at the caller. *)
Example getRoom_toString_throws_null :
  let P := {| engine := throwing_engine;
              qs_stringify := stub_stringify;
              Buffer_from := stub_Buffer_from;
              fs_createReadStream := stub_createReadStream;
              network := fun _ _ => ok_with VNull |} in
  let room := VObj [("toString", VHost 1)] in
  @Chained.getRoom P local_client room = (Throws VNull, [])
  /\ @Async.getRoom P local_client room
     = (Rejects (TypeError "Cannot read properties of null (reading 'response')"), []).
Proof. split; reflexivity. Qed.

(** Two commands, the second with a space and an ampersand in it. *)
Lemma postCommand_keeps_order_run :
  let P := stub (ok_with VNull) in
  let commands := ["set A1 value n 1"; "set A2 text t a&b"] in
  let body :=
    "command%5B0%5D=set%20A1%20value%20n%201&command%5B1%5D=set%20A2%20text%20t%20a%26b" in
  @encodes_commands_like_qs P
  /\ requests (@Chained.postCommand P local_client (VStr "sheet1") (VArr (map VStr commands)))
     = [{| method := POST; url := "/_/sheet1"; data := Text body; config := no_config |}]
  /\ requests (@Async.postCommand P local_client (VStr "sheet1") (VArr (map VStr commands)))
     = [{| method := POST; url := "/_/sheet1"; data := Text body; config := no_config |}]
  /\ form_values body = commands.
Proof.
  intros P commands body.
  pose proof (stub_encodes_commands_like_qs (ok_with VNull)) as Hqs.
  split; [exact Hqs |].
  destruct (proj2 (@postCommand_keeps_order P local_client "sheet1" commands) Hqs)
    as [Hchained [Hasync [_ Hread]]].
  split; [exact Hchained | split; [exact Hasync | exact Hread]].
Defined.
